(** * Paper2Code2Code: the five-stage pipeline of [Transformer_repo]

    A shallow embedding of [paper_parser.py], [planner.py], [analyzer.py],
    [code_generator.py] and [evaluation.py], and the properties of the
    specification stated over it.

    Conventions.
    - A Python [str] is a [string]; each character stands for one code
      point below 256.
    - A Python [dict] with string keys is a [gmap string _]; insertion
      order is not represented, and where the code iterates over a dict
      the order of its keys is a parameter ([key_order]).
    - A Python [float] is the rational it denotes ([VFloat]); the scores
      of the evaluator (4.0, 4.5, their sums and averages) are dyadic
      rationals that binary64 represents exactly for every sample count
      below 2^53 / 9, so [Q] arithmetic agrees with the code there.
    - [logging] calls append to a log; they never raise.
    - Exceptions are values of [exn]; a computation is a log and either a
      result or the exception that ended it. *)

From Stdlib Require Import ZArith QArith Qround Ascii String List DecimalString.
From stdpp Require Import base option list gmap strings.

Set Warnings "-register-all".

Local Open Scope string_scope.

(* ================================================================= *)
(** ** Python values and builtins *)

Module Py.

(** What [json.load] and [yaml.safe_load] produce. *)
Inductive value : Type :=
| VNone
| VBool (b : bool)
| VInt (z : Z)
| VFloat (q : Q)
| VStr (s : string)
| VList (l : list value)
| VDict (d : gmap string value).

Abbreviation dict := (gmap string value).

Inductive exn : Type :=
| ValueError (msg : string)
| AttributeError
| TypeError
| KeyError.

Inductive result (A : Type) : Type :=
| Ok (a : A)
| Raise (e : exn).
Arguments Ok {A} a.
Arguments Raise {A} e.

Inductive log_level : Type := DEBUG | INFO | WARNING | ERROR.

Record log_entry : Type := Log {
  level : log_level;
  format : string;
  args : list value
}.

(** A computation: what it logged, and how it ended. *)
Definition M (A : Type) : Type := (list log_entry * result A)%type.

Definition ret {A} (a : A) : M A := ([], Ok a).
Definition raise {A} (e : exn) : M A := ([], Raise e).
Definition bind {A B} (m : M A) (k : A -> M B) : M B :=
  match m with
  | (l, Ok a) => let '(l', r) := k a in ((l ++ l')%list, r)
  | (l, Raise e) => (l, Raise e)
  end.
Definition logging (lv : log_level) (fmt : string) (xs : list value) : M unit :=
  ([Log lv fmt xs], Ok tt).

Definition outcome {A} (m : M A) : result A := snd m.
Definition logged {A} (m : M A) : list log_entry := fst m.

#[global] Instance M_ret : MRet M := @ret.
#[global] Instance M_bind : MBind M := fun A B k m => bind m k.

(** Truth value testing ([if x], [not x]). *)
Definition truthy (v : value) : bool :=
  match v with
  | VNone => false
  | VBool b => b
  | VInt z => negb (z =? 0)%Z
  | VFloat q => negb (Qeq_bool q 0)
  | VStr s => negb (String.eqb s EmptyString)
  | VList l => match l with [] => false | _ => true end
  | VDict d => negb (bool_decide (d = ∅))
  end.

(** [c.isspace()] for a code point below 256. *)
Definition isspace (c : ascii) : bool :=
  let n := nat_of_ascii c in
  ((9 <=? n) && (n <=? 13) || (28 <=? n) && (n <=? 32)
   || (n =? 133) || (n =? 160))%nat.

Fixpoint lstrip (s : string) : string :=
  match s with
  | String c s' => if isspace c then lstrip s' else s
  | EmptyString => EmptyString
  end.

(** [s.strip()] *)
Definition strip (s : string) : string :=
  String.rev (lstrip (String.rev (lstrip s))).

(** [sep.join(l)] *)
Definition join (sep : string) (l : list string) : string :=
  String.concat sep l.

(** [needle in hay] for two strings. *)
Fixpoint contains (needle hay : string) : bool :=
  String.prefix needle hay
  || match hay with
     | String _ hay' => contains needle hay'
     | EmptyString => false
     end.

(** [c.lower()] for a code point below 256. *)
Definition lower_char (c : ascii) : ascii :=
  let n := nat_of_ascii c in
  if ((65 <=? n) && (n <=? 90)
      || (192 <=? n) && (n <=? 222) && negb (n =? 215))%nat
  then ascii_of_nat (n + 32) else c.

Fixpoint lower (s : string) : string :=
  match s with
  | String c s' => String (lower_char c) (lower s')
  | EmptyString => EmptyString
  end.

(** [s[:n]] *)
Fixpoint take (n : nat) (s : string) : string :=
  match n, s with
  | S n', String c s' => String c (take n' s')
  | _, _ => EmptyString
  end.

(** [len(s.split())]: the number of maximal runs of characters that are
    not whitespace. [inside] tells whether the previous character was
    part of a token. *)
Fixpoint count_tokens (inside : bool) (s : string) : nat :=
  match s with
  | EmptyString => 0
  | String c s' =>
      if isspace c then count_tokens false s'
      else (if inside then 0 else 1) + count_tokens true s'
  end.

(** The class [\w] of [re] on [str] patterns, for a code point below
    256: alphanumeric characters and the underscore. *)
Definition isword (c : ascii) : bool :=
  let n := nat_of_ascii c in
  ((48 <=? n) && (n <=? 57) || (65 <=? n) && (n <=? 90)
   || (97 <=? n) && (n <=? 122) || (n =? 95)
   || (n =? 170) || (n =? 178) || (n =? 179) || (n =? 181)
   || (n =? 185) || (n =? 186) || (188 <=? n) && (n <=? 190)
   || (192 <=? n) && (n <=? 214) || (216 <=? n) && (n <=? 246)
   || (248 <=? n))%nat.

(** [len(re.findall(r'\bdef\b', s))]. [prev] tells whether the previous
    character is a word character; [skip] counts the characters of a
    match still to be consumed (matches do not overlap). *)
Fixpoint count_def (prev : bool) (skip : nat) (s : string) : nat :=
  match s with
  | EmptyString => 0
  | String c s' =>
      match skip with
      | S k => count_def (isword c) k s'
      | O =>
          let here :=
            negb prev && String.prefix "def" s
            && match s' with
               | String _ (String _ (String c3 _)) => negb (isword c3)
               | _ => true
               end in
          if here then 1 + count_def (isword c) 2 s'
          else count_def (isword c) 0 s'
      end
  end.

(** [d.get(key, default)]; only a [dict] has the method. *)
Definition get (v : value) (key : string) (dflt : value) : M value :=
  match v with
  | VDict d => ret (default dflt (d !! key))
  | _ => raise AttributeError
  end.

(** [key in v], for a string [key]. *)
Definition is_in (key : string) (v : value) : M bool :=
  match v with
  | VDict d => ret (bool_decide (is_Some (d !! key)))
  | VList l =>
      ret (existsb (fun x => match x with
                             | VStr s => String.eqb s key
                             | _ => false
                             end) l)
  | VStr s => ret (contains key s)
  | _ => raise TypeError
  end.

(** [v[key]], for a string [key]. *)
Definition getitem (v : value) (key : string) : M value :=
  match v with
  | VDict d => match d !! key with
               | Some x => ret x
               | None => raise KeyError
               end
  | _ => raise TypeError
  end.

(** [str(v)]. The [repr] formatting of floats, lists and dicts is left
    to [repr_other]. *)
Definition str (repr_other : value -> string) (v : value) : string :=
  match v with
  | VStr s => s
  | VNone => "None"
  | VBool true => "True"
  | VBool false => "False"
  | VInt z => NilZero.string_of_int (Z.to_int z)
  | _ => repr_other v
  end.

End Py.

(* ================================================================= *)
(** ** paper_parser.py *)

Module PaperParser.
Import Py.

Record t : Type := { paper_json : dict }.

(** The structured paper [parse] returns. *)
Record Paper : Type := {
  paper_id : string;
  title : string;
  abstract : string;
  body_text : string;
  figures : list string;
  ref_entries : dict
}.

(** [PaperParser.__init__] *)
Definition init (paper_json : dict) : M t :=
  if negb (bool_decide (is_Some (paper_json !! "paper_id")))
     || negb (bool_decide (is_Some (paper_json !! "title")))
  then
    _ ← logging ERROR "Paper JSON missing required fields: 'paper_id' and/or 'title'." [];
    raise (ValueError "Paper JSON must contain 'paper_id' and 'title' fields.")
  else mret {| paper_json := paper_json |}.

(** [PaperParser._clean_text]: [text.strip()], a method of [str] only. *)
Definition _clean_text (text : value) : M string :=
  match text with
  | VStr s => mret (strip s)
  | _ => raise AttributeError
  end.

(** The loop shared by the abstract, body text and figure extraction
    ([for item in ...] with its [isinstance] cases), threading the list
    [segments] it appends to. *)
Fixpoint collect_segments (items : list value) (segments : list string)
  : M (list string) :=
  match items with
  | [] => mret segments
  | VDict d :: rest =>
      segment ← _clean_text (default (VStr EmptyString) (d !! "text"));
      if truthy (VStr segment)
      then collect_segments rest (segments ++ [segment])%list
      else collect_segments rest segments
  | VStr s :: rest =>
      segment ← _clean_text (VStr s);
      collect_segments rest (segments ++ [segment])%list
  | _ :: rest => collect_segments rest segments
  end.

(** The list comprehension of the [pdf_parse] branch: only [dict] items
    whose stripped text is not empty. *)
Fixpoint pdf_segments (items : list value) : M (list string) :=
  match items with
  | [] => mret []
  | VDict d :: rest =>
      stripped ← _clean_text (default (VStr EmptyString) (d !! "text"));
      if truthy (VStr stripped)
      then
        segment ← _clean_text (default (VStr EmptyString) (d !! "text"));
        segments ← pdf_segments rest;
        mret (segment :: segments)
      else pdf_segments rest
  | _ :: rest => pdf_segments rest
  end.

(** The [elif "pdf_parse" in ...] and [else] branches of the abstract
    extraction. *)
Definition abstract_from_pdf_parse (paper_json : dict) : M string :=
  let not_found :=
    _ ← logging WARNING "Abstract not found in the paper JSON." [];
    mret EmptyString in
  match paper_json !! "pdf_parse" with
  | None => not_found
  | Some pdf_parse =>
      has_abstract ← is_in "abstract" pdf_parse;
      if has_abstract : bool then
        pdf_abstract ← getitem pdf_parse "abstract";
        match pdf_abstract with
        | VList items =>
            segments ← pdf_segments items;
            mret (join " " segments)
        | VStr s => _clean_text (VStr s)
        | _ => mret EmptyString
        end
      else not_found
  end.

(** Lines 61-90 of [parse]. *)
Definition parse_abstract (paper_json : dict) : M string :=
  match paper_json !! "abstract" with
  | Some a =>
      if truthy a then
        match a with
        | VList items =>
            segments ← collect_segments items [];
            mret (join " " segments)
        | VStr s => _clean_text (VStr s)
        | _ => mret EmptyString
        end
      else abstract_from_pdf_parse paper_json
  | None => abstract_from_pdf_parse paper_json
  end.

(** Lines 92-107 of [parse]. *)
Definition parse_body_text (paper_json : dict) : M string :=
  match paper_json !! "body_text" with
  | Some (VList items) =>
      segments ← collect_segments items [];
      mret (join (String (ascii_of_nat 10) EmptyString) segments)
  | _ =>
      _ ← logging WARNING "Body text not found in the paper JSON." [];
      mret EmptyString
  end.

(** Lines 109-119 of [parse]. *)
Definition parse_figures (paper_json : dict) : M (list string) :=
  match paper_json !! "back_matter" with
  | Some (VList items) => collect_segments items []
  | _ => mret []
  end.

(** Lines 121-127 of [parse]. *)
Definition parse_ref_entries (paper_json : dict) : M dict :=
  match paper_json !! "ref_entries" with
  | Some (VDict d) => mret d
  | _ =>
      _ ← logging INFO "Reference entries not found in the paper JSON." [];
      mret ∅
  end.

Section Parse.
Variable repr_other : value -> string.

(** [PaperParser.parse] *)
Definition parse (self : t) : M Paper :=
  let json := paper_json self in
  id ← _clean_text
         (VStr (str repr_other (default (VStr EmptyString) (json !! "paper_id"))));
  ti ← _clean_text
         (VStr (str repr_other (default (VStr EmptyString) (json !! "title"))));
  abstract_text ← parse_abstract json;
  body ← parse_body_text json;
  figs ← parse_figures json;
  refs ← parse_ref_entries json;
  mret {| paper_id := id; title := ti; abstract := abstract_text;
          body_text := body; figures := figs; ref_entries := refs |}.

(** [PaperParser(paper_json).parse()] *)
Definition run (paper_json : dict) : M Paper :=
  parser ← init paper_json;
  parse parser.

End Parse.

End PaperParser.

(* ================================================================= *)
(** ** planner.py *)

Module Planner.
Import Py.

Record t : Type := { paper : dict }.

Record summary : Type := {
  summary_title : value;
  abstract_excerpt : string
}.

Record plan : Type := {
  implementation_goal : string;
  methodology_overview : string;
  experimental_setup : string;
  ambiguous_details : list string;
  paper_summary : summary
}.

(** [abstract[:200] + ("..." if len(abstract) > 200 else "")]. Only a
    [str] can be sliced and then concatenated with a [str]; every other
    value ends in an exception ([TypeError] under Python 3.11). *)
Definition excerpt (abstract : value) : M string :=
  match abstract with
  | VStr s =>
      mret (take 200 s
            ++ (if (200 <? String.length s)%nat then "..." else EmptyString))
  | _ => raise TypeError
  end.

Section Plan.
Variable repr_other : value -> string.

(** [Planner.create_overall_plan] *)
Definition create_overall_plan (self : t) : M plan :=
  let title := default (VStr "Untitled Paper") (paper self !! "title") in
  let abstract := default (VStr EmptyString) (paper self !! "abstract") in
  let body_text := default (VStr EmptyString) (paper self !! "body_text") in
  let goal :=
    "Reproduce the experiments and methodologies described in the paper titled '"
    ++ str repr_other title ++ "'." in
  let methodology :=
    "Components include data preprocessing, model training, evaluation, and architectural design "
    ++ "with interdependent modules mirroring the multi-stage pipeline described in the paper." in
  let setup :=
    "Experimentation should follow a dependency-aware pipeline utilizing n=8 sampling for evaluation, "
    ++ "and both reference-based and reference-free evaluation using the specified evaluation model." in
  let ambiguous := [] in
  let ambiguous :=
    if negb (truthy abstract)
    then (ambiguous
          ++ ["Abstract is missing or insufficient to extract methodology details."])%list
    else ambiguous in
  let ambiguous :=
    if negb (truthy body_text)
    then (ambiguous
          ++ ["Body text is missing; experimental procedures and detailed methods are unclear."])%list
    else ambiguous in
  abstract_excerpt ← excerpt abstract;
  _ ← logging INFO "Overall plan created successfully." [];
  mret {| implementation_goal := goal;
          methodology_overview := methodology;
          experimental_setup := setup;
          ambiguous_details := ambiguous;
          paper_summary := {| summary_title := title;
                              abstract_excerpt := abstract_excerpt |} |}.

End Plan.

(** What opening [config.yaml] and [yaml.safe_load] produce: an
    exception, or the value of the document. *)
Inductive yaml_file : Type :=
| Unreadable
| Loaded (v : value).

(** The [try]/[except] block shared by [Planner.generate_config] and
    [Evaluator.__init__]; [empty_level] and [empty_message] are those of
    the caller's log call for an empty document. *)
Definition load_or_empty (file : yaml_file) (empty_level : log_level)
  (empty_message failure_message : string) : M value :=
  match file with
  | Loaded loaded_config =>
      if negb (truthy loaded_config) then
        _ ← logging empty_level empty_message [];
        mret (VDict ∅)
      else mret loaded_config
  | Unreadable =>
      _ ← logging ERROR failure_message [];
      mret (VDict ∅)
  end.

(** [Planner.generate_config] *)
Definition generate_config (file : yaml_file) : M dict :=
  loaded_config ←
    load_or_empty file WARNING
      "Config file is empty. Using default configuration values."
      "Failed to load configuration file: {e}";
  training_config ← get loaded_config "training" (VDict ∅);
  evaluation_config ← get loaded_config "evaluation" (VDict ∅);
  learning_rate ← get training_config "learning_rate" (VStr "0.001");
  batch_size ← get training_config "batch_size" (VStr "32");
  epochs ← get training_config "epochs" (VStr "10");
  n_way_sampling ← get evaluation_config "n_way_sampling" (VInt 8);
  evaluation_model ← get evaluation_config "evaluation_model" (VStr "o3-mini-high");
  _ ← logging INFO "Configuration generated successfully from config.yaml." [];
  mret ({[ "training" := VDict {[ "learning_rate" := learning_rate;
                                  "batch_size" := batch_size;
                                  "epochs" := epochs ]};
           "evaluation" := VDict {[ "n_way_sampling" := n_way_sampling;
                                    "evaluation_model" := evaluation_model ]} ]}
        : dict).

End Planner.

(* ================================================================= *)
(** ** analyzer.py *)

Module Analyzer.
Import Py.

Record t : Type := {
  plan : dict;
  architecture_design : value;
  file_list : value
}.

Record spec : Type := {
  functionality : string;
  expected_inputs : list string;
  expected_outputs : list string;
  dependencies : list string
}.

Record analysis : Type := {
  file_name : value;
  analysis_spec : spec
}.

Definition default_file_list : list string :=
  ["main.py"; "paper_parser.py"; "planner.py"; "analyzer.py";
   "code_generator.py"; "evaluation.py"].

(** [v[key] = x] *)
Definition setitem (v : value) (key : string) (x : value) : M value :=
  match v with
  | VDict d => mret (VDict (<[ key := x ]> d))
  | _ => raise TypeError
  end.

(** [Analyzer.__init__]. The assignment to [architecture_design] is
    visible through [plan] when the entry is the plan's own (empty)
    dict. *)
Definition init (plan : dict) : M t :=
  let architecture_design := default (VDict ∅) (plan !! "architecture_design") in
  architecture_design ←
    (if negb (truthy architecture_design) then
       _ ← logging WARNING
             "Architecture design missing in plan. Using default file list." [];
       setitem architecture_design "file_list" (VList (VStr <$> default_file_list))
     else mret architecture_design);
  let plan :=
    match plan !! "architecture_design" with
    | Some _ => <[ "architecture_design" := architecture_design ]> plan
    | None => plan
    end in
  file_list ← get architecture_design "file_list" (VList []);
  file_list ←
    (if negb (truthy file_list) then
       _ ← logging WARNING
             "File list is empty in architecture design. Assigning default file list." [];
       mret (VList (VStr <$> default_file_list))
     else mret file_list);
  mret {| plan := plan; architecture_design := architecture_design;
          file_list := file_list |}.

(** The literal [module_specs] of [analyze_modules]. *)
Definition module_specs : gmap string spec :=
  {[ "paper_parser.py" :=
       {| functionality :=
            "Parses the input paper JSON and produces a structured Paper object with fields: "
            ++ "paper_id, title, abstract, body_text, figures, and ref_entries.";
          expected_inputs := ["Raw paper JSON"];
          expected_outputs := ["Structured Paper object (dict)"];
          dependencies := [] |};
     "planner.py" :=
       {| functionality :=
            "Generates an overall plan, architecture design (including file list, class diagram, "
            ++ "and sequence diagram), and configuration details from the structured Paper object.";
          expected_inputs := ["Structured Paper object (from paper_parser.py)"];
          expected_outputs :=
            ["Overall plan dictionary";
             "Architecture design dictionary (file_list, class diagram, sequence diagram)";
             "Configuration details dictionary"];
          dependencies := ["paper_parser.py"] |};
     "analyzer.py" :=
       {| functionality :=
            "Analyzes the Planner's output to produce detailed file-level specifications, including module "
            ++ "responsibilities, input/output contracts, and inter-module dependency relations.";
          expected_inputs :=
            ["Plan dictionary containing overall plan, architecture design, and configuration details"];
          expected_outputs := ["List of file-level analysis dictionaries for each module"];
          dependencies := ["planner.py"] |};
     "code_generator.py" :=
       {| functionality :=
            "Generates modular, dependency-aware code templates for each file based on the overall plan and "
            ++ "the detailed analysis produced by Analyzer.";
          expected_inputs :=
            ["Overall plan dictionary"; "Detailed file-level analysis from Analyzer"];
          expected_outputs := ["Dictionary of generated code files (filename : code string)"];
          dependencies := ["planner.py"; "analyzer.py"] |};
     "evaluation.py" :=
       {| functionality :=
            "Evaluates the generated code repository using reference-based and reference-free metrics as defined "
            ++ "in the experimental setup.";
          expected_inputs := ["Generated repository (from code_generator.py)"];
          expected_outputs := ["Evaluation metrics dictionary"];
          dependencies := ["code_generator.py"] |};
     "main.py" :=
       {| functionality :=
            "Orchestrates the entire pipeline by sequentially invoking the parsing, planning, analysis, code generation, "
            ++ "and evaluation modules.";
          expected_inputs := ["Configuration details and outputs from all modules"];
          expected_outputs := ["Final code repository and evaluation metrics"];
          dependencies :=
            ["paper_parser.py"; "planner.py"; "analyzer.py"; "code_generator.py";
             "evaluation.py"] |} ]}.

(** The spec substituted when [module_specs.get(file_name)] is [None]. *)
Definition default_spec : spec :=
  {| functionality := "No specific functionality defined.";
     expected_inputs := [];
     expected_outputs := [];
     dependencies := [] |}.

(** [module_specs.get(file_name)]: the key has to be hashable, and only
    a [str] can equal one of the keys. *)
Definition lookup_spec (file_name : value) : M (option spec) :=
  match file_name with
  | VStr s => mret (module_specs !! s)
  | VList _ | VDict _ => raise TypeError
  | _ => mret None
  end.

(** The body of the loop of [analyze_modules]. *)
Definition analyze_one (file_name : value) : M analysis :=
  found ← lookup_spec file_name;
  spec ←
    match found with
    | Some spec => mret spec
    | None =>
        _ ← logging WARNING
              "No predefined specification for %s. Using default values." [file_name];
        mret default_spec
    end;
  mret {| file_name := file_name; analysis_spec := spec |}.

Fixpoint analyze_loop (file_names : list value) (analysis_list : list analysis)
  : M (list analysis) :=
  match file_names with
  | [] => mret analysis_list
  | file_name :: rest =>
      analysis ← analyze_one file_name;
      analyze_loop rest (analysis_list ++ [analysis])%list
  end.

Section Iteration.

(** The keys of a dict in the order Python iterates them, the order of
    insertion. A [dict] of this model holds the entries and not their
    order, so the order is a parameter of the iteration. *)
Variable key_order : dict -> list string.

(** [for x in v]: the items of a list, the characters of a string, the
    keys of a dict in their order of insertion; nothing else iterates. *)
Definition iterate (v : value) : M (list value) :=
  match v with
  | VList l => mret l
  | VStr s => mret ((fun c => VStr (String c EmptyString)) <$> list_ascii_of_string s)
  | VDict d => mret (VStr <$> key_order d)
  | _ => raise TypeError
  end.

(** [Analyzer.analyze_modules] *)
Definition analyze_modules (self : t) : M (list analysis) :=
  file_names ← iterate (file_list self);
  analysis_list ← analyze_loop file_names [];
  _ ← logging INFO
        "Module analysis completed successfully with %d modules analyzed."
        [VInt (Z.of_nat (length analysis_list))];
  mret analysis_list.

(** [Analyzer(plan).analyze_modules()] *)
Definition run (plan : dict) : M (list analysis) :=
  analyzer ← init plan;
  analyze_modules analyzer.

End Iteration.

End Analyzer.

(* ================================================================= *)
(** ** code_generator.py *)

Module CodeGenerator.
Import Py.

Record t : Type := { analysis : value; plan : value }.

(** [CodeGenerator.__init__] *)
Definition init (analysis plan : value) : M t :=
  if negb (truthy analysis) then
    _ ← logging ERROR
          "Analysis list is empty. Cannot generate code without analysis." [];
    raise (ValueError "Empty analysis list provided.")
  else if negb (truthy plan) then
    _ ← logging ERROR
          "Plan dictionary is empty. Cannot generate code without plan." [];
    raise (ValueError "Empty plan dictionary provided.")
  else mret {| analysis := analysis; plan := plan |}.

Definition dq : string := String (ascii_of_nat 34) EmptyString.
Definition newline : string := String (ascii_of_nat 10) EmptyString.

(** The text of [code_generator.py] from the character that follows the
    opening quotes of the literal on line 191 (the template returned for
    [code_generator.py]) to the end of line 234, one string per line. *)
Definition template_source_lines : list string :=
  [dq ++ dq ++ dq;
   "Module: {file_name}";
   "{details}";
   "This module defines the CodeGenerator class, which generates code templates for all repository files.";
   "Configuration placeholders:";
   "    - training.learning_rate: {{learning_rate}}";
   "    - training.batch_size: {{batch_size}}";
   "    - training.epochs: {{epochs}}";
   dq ++ dq ++ dq;
   EmptyString;
   "import logging";
   "from typing import Any, Dict, List";
   EmptyString;
   "class CodeGenerator:";
   "    def __init__(self, analysis: List[Dict[str, Any]], plan: Dict[str, Any]) -> None:";
   "        if not analysis:";
   "            logging.error(" ++ dq ++ "Empty analysis list provided to CodeGenerator." ++ dq ++ ")";
   "            raise ValueError(" ++ dq ++ "Analysis list is empty." ++ dq ++ ")";
   "        if not plan:";
   "            logging.error(" ++ dq ++ "Empty plan dictionary provided to CodeGenerator." ++ dq ++ ")";
   "            raise ValueError(" ++ dq ++ "Plan dictionary is empty." ++ dq ++ ")";
   "        self.analysis = analysis";
   "        self.plan = plan";
   EmptyString;
   "    def generate_code(self) -> Dict[str, str]:";
   "        generated_code = {{}}";
   "        for module in self.analysis:";
   "            file_name = module.get(" ++ dq ++ "file_name" ++ dq ++ ")";
   "            if not file_name:";
   "                logging.warning(" ++ dq ++ "Module in analysis missing 'file_name'; skipping." ++ dq ++ ")";
   "                continue";
   "            details = module.get(" ++ dq ++ "functionality" ++ dq ++ ", " ++ dq ++ dq ++ ")";
   "            template = self._generate_template(file_name, details)";
   "            final_code = self._inject_configuration(template)";
   "            generated_code[file_name] = final_code";
   "            logging.info(" ++ dq ++ "Generated code for module: %s" ++ dq ++ ", file_name)";
   "        return generated_code";
   EmptyString;
   "    def _generate_template(self, file_name: str, details: str) -> str:";
   "        if file_name in [" ++ dq ++ "paper_parser.py" ++ dq ++ ", " ++ dq ++ "planner.py" ++ dq ++ ", " ++ dq ++ "analyzer.py" ++ dq ++ "]:";
   "            return f'''\" ++ dq ++ "\" ++ dq ++ "\" ++ dq ++ "Module: {{file_name}}";
   "{{details}}";
   "This module is assumed to be already implemented.";
   "\" ++ dq ++ "\" ++ dq ++ "\" ++ dq ++ "'''"].

Definition template_source : string := join newline template_source_lines.

(** How Python delimits a literal opened by three single quotes: a
    backslash takes the next character with it, and the first three
    consecutive single quotes close the literal. The result is the body
    of the literal and the source text after the closing quotes. *)
Fixpoint scan_literal (src : string) : option (string * string) :=
  match src with
  | EmptyString => None
  | String c rest =>
      if Ascii.eqb c (ascii_of_nat 92) then
        match rest with
        | String c' rest' =>
            match scan_literal rest' with
            | Some (body, after) => Some (String c (String c' body), after)
            | None => None
            end
        | EmptyString => None
        end
      else if String.prefix "'''" src then
        match rest with
        | String _ (String _ after) => Some (EmptyString, after)
        | _ => None
        end
      else
        match scan_literal rest with
        | Some (body, after) => Some (String c body, after)
        | None => None
        end
  end.

(** Outside a literal a backslash joins two lines: it has to be the last
    character of its line. *)
Definition continuation_ok (after : string) : bool :=
  match after with
  | String c (String c' _) =>
      negb (Ascii.eqb c (ascii_of_nat 92)) || Ascii.eqb c' (ascii_of_nat 10)
  | _ => true
  end.

Inductive lexed : Type :=
| Literal (body : string)
| SyntaxError.

(** What the tokenizer makes of the literal opened on line 191. *)
Definition lex_template : lexed :=
  match scan_literal template_source with
  | Some (body, after) => if continuation_ok after then Literal body else SyntaxError
  | None => SyntaxError
  end.

(** [s.replace(old, new)] for a non-empty [old]: every occurrence, from
    left to right, without overlap. [skip] counts the characters of a
    match still to be dropped. *)
Fixpoint replace_go (old new : string) (skip : nat) (s : string) : string :=
  match s with
  | EmptyString => EmptyString
  | String c s' =>
      match skip with
      | S k => replace_go old new k s'
      | O =>
          if String.prefix old s
          then new ++ replace_go old new (String.length old - 1) s'
          else String c (replace_go old new 0 s')
      end
  end.

Definition replace (old new s : string) : string := replace_go old new 0 s.

Section Inject.
Variable repr_other : value -> string.

(** [CodeGenerator._inject_configuration] *)
Definition _inject_configuration (self : t) (template : string) : M string :=
  config ← get (plan self) "config" (VDict ∅);
  training_config ← get config "training" (VDict ∅);
  evaluation_config ← get config "evaluation" (VDict ∅);
  learning_rate ← get training_config "learning_rate" (VStr "0.001");
  let template := replace "{learning_rate}" (str repr_other learning_rate) template in
  batch_size ← get training_config "batch_size" (VStr "32");
  let template := replace "{batch_size}" (str repr_other batch_size) template in
  epochs ← get training_config "epochs" (VStr "10");
  let template := replace "{epochs}" (str repr_other epochs) template in
  n_way_sampling ← get evaluation_config "n_way_sampling" (VStr "8");
  let template := replace "{n_way_sampling}" (str repr_other n_way_sampling) template in
  evaluation_model ← get evaluation_config "evaluation_model" (VStr "o3-mini-high");
  let template :=
    replace "{evaluation_model}" (str repr_other evaluation_model) template in
  mret template.

End Inject.

(** The value of an f-string whose replacement fields are names: two
    braces stand for one, a name between braces for its value. [field]
    holds the name being read. *)
Fixpoint format_go (fields : list (string * string)) (field : option string)
  (s : string) : option string :=
  match s with
  | EmptyString =>
      match field with
      | None => Some EmptyString
      | Some _ => None
      end
  | String c s' =>
      match field with
      | Some name =>
          if Ascii.eqb c "}" then
            match list_find (fun kv => String.eqb (fst kv) name) fields,
                  format_go fields None s' with
            | Some (_, (_, v)), Some rest => Some (v ++ rest)
            | _, _ => None
            end
          else format_go fields (Some (name ++ String c EmptyString)) s'
      | None =>
          if Ascii.eqb c "{" then
            match s' with
            | String c' s'' =>
                if Ascii.eqb c' "{"
                then String c <$> format_go fields None s''
                else format_go fields (Some EmptyString) s'
            | EmptyString => None
            end
          else if Ascii.eqb c "}" then
            match s' with
            | String c' s'' =>
                if Ascii.eqb c' "}"
                then String c <$> format_go fields None s''
                else None
            | EmptyString => None
            end
          else String c <$> format_go fields None s'
      end
  end.

(** The text the literal of line 191 stands for, as far as the
    tokenizer reads it, for a file name and its details. *)
Definition template_as_lexed (file_name details : string) : option string :=
  match scan_literal template_source with
  | Some (body, _) =>
      format_go [("file_name", file_name); ("details", details)] None body
  | None => None
  end.

End CodeGenerator.

(* ================================================================= *)
(** ** evaluation.py *)

Module Evaluator.
Import Py.

(** The generated repository: file name to code string. *)
Abbreviation repo := (gmap string string).

Record t : Type := {
  repository : repo;
  config : value;
  n_way_sampling : value;
  evaluation_model : value
}.

Record statistics : Type := {
  file_count : nat;
  total_tokens : nat;
  function_count : nat
}.

Record metrics : Type := {
  reference_based_score : option Q;
  reference_free_score : option Q;
  human_score : Q;
  summary_statistics : statistics;
  metrics_evaluation_model : value;
  metrics_n_way_sampling : value
}.

(** [Evaluator.__init__]; [config = VNone] is the default argument. *)
Definition init (file : Planner.yaml_file) (repository : repo) (config : value)
  : M t :=
  if bool_decide (repository = ∅) then
    _ ← logging ERROR "The repository provided for evaluation is empty." [];
    raise (ValueError "Repository cannot be empty.")
  else
    config ←
      match config with
      | VNone =>
          Planner.load_or_empty file ERROR
            "Configuration file config.yaml is empty."
            "Failed to load config.yaml: %s"
      | _ => mret config
      end;
    evaluation_config ← get config "evaluation" (VDict ∅);
    n_way_sampling ← get evaluation_config "n_way_sampling" (VInt 8);
    evaluation_model ← get evaluation_config "evaluation_model" (VStr "o3-mini-high");
    _ ← logging INFO
          "Evaluator initialized with n_way_sampling: %d, evaluation_model: %s"
          [n_way_sampling; evaluation_model];
    mret {| repository := repository; config := config;
            n_way_sampling := n_way_sampling;
            evaluation_model := evaluation_model |}.

Definition statistics_value (stats : statistics) : value :=
  VDict {[ "file_count" := VInt (Z.of_nat (file_count stats));
           "total_tokens" := VInt (Z.of_nat (total_tokens stats));
           "function_count" := VInt (Z.of_nat (function_count stats)) ]}.

(** [Evaluator._compute_summary_statistics] *)
Definition _compute_summary_statistics (self : t) : M statistics :=
  let stats :=
    {| file_count := size (repository self);
       total_tokens :=
         map_fold (fun _ code total => total + count_tokens false code)%nat
                  0%nat (repository self);
       function_count :=
         map_fold (fun _ code total => total + count_def false 0 code)%nat
                  0%nat (repository self) |} in
  _ ← logging INFO "Repository Summary Statistics: %s" [statistics_value stats];
  mret stats.

(** [Evaluator._simulate_llm_evaluation] *)
Definition _simulate_llm_evaluation (prompt : string) : M Q :=
  let score := if contains "gold-standard" (lower prompt) then (4 # 1)%Q else (9 # 2)%Q in
  _ ← logging DEBUG
        "Simulated LLM evaluation for prompt: '%s' returned score: %f"
        [VStr prompt; VFloat score];
  mret score.

(** [range(v)], as the number of iterations. *)
Definition range (v : value) : M nat :=
  match v with
  | VInt z => mret (Z.to_nat z)
  | VBool b => mret (Nat.b2n b)
  | _ => raise TypeError
  end.

(** The loop of the n-way sampling, threading the two score lists. *)
Fixpoint sampling (n : nat) (has_gold_standard : bool) (prompt_ref prompt_free : string)
  (ref_based_scores ref_free_scores : list Q) : M (list Q * list Q) :=
  match n with
  | O => mret (ref_based_scores, ref_free_scores)
  | S n' =>
      ref_based_scores ←
        (if has_gold_standard then
           score_ref ← _simulate_llm_evaluation prompt_ref;
           mret (ref_based_scores ++ [score_ref])%list
         else mret ref_based_scores);
      score_free ← _simulate_llm_evaluation prompt_free;
      sampling n' has_gold_standard prompt_ref prompt_free
               ref_based_scores (ref_free_scores ++ [score_free])%list
  end.

(** Rounding to the nearest integer, ties to even. *)
Definition round_half_even (q : Q) : Z :=
  let f := Qfloor q in
  match (q - inject_Z f ?= 1 # 2)%Q with
  | Lt => f
  | Gt => (f + 1)%Z
  | Eq => if Z.even f then f else (f + 1)%Z
  end.

(** [round(q, 2)] *)
Definition round2 (q : Q) : Q := Qred (round_half_even (q * 100)%Q # 100).

(** [round(sum(scores) / len(scores), 2)] *)
Definition average (scores : list Q) : Q :=
  round2 (fold_left Qplus scores 0 / inject_Z (Z.of_nat (length scores)))%Q.

Definition score_value (score : option Q) : value :=
  match score with
  | Some q => VFloat q
  | None => VNone
  end.

Definition metrics_value (m : metrics) : value :=
  VDict {[ "reference_based_score" := score_value (reference_based_score m);
           "reference_free_score" := score_value (reference_free_score m);
           "human_score" := VFloat (human_score m);
           "summary_statistics" := statistics_value (summary_statistics m);
           "evaluation_model" := metrics_evaluation_model m;
           "n_way_sampling" := metrics_n_way_sampling m ]}.

(** The two prompts of [evaluate]. *)
Definition prompt_ref (has_gold_standard : bool) : string :=
  if has_gold_standard
  then "Evaluate the generated repository against the gold-standard repository. "
       ++ "Assess the coverage and correctness of the required components on a scale of 1 to 5."
  else "No gold-standard available.".

Definition prompt_free : string :=
  "Evaluate the generated repository based solely on the experimental methods described in the paper. "
  ++ "Provide a correctness score on a scale of 1 to 5.".

(** [Evaluator.evaluate] *)
Definition evaluate (self : t) : M metrics :=
  summary_stats ← _compute_summary_statistics self;
  let has_gold_standard := bool_decide (is_Some (repository self !! "gold_standard")) in
  n ← range (n_way_sampling self);
  scores ← sampling n has_gold_standard (prompt_ref has_gold_standard) prompt_free [] [];
  let '(ref_based_scores, ref_free_scores) := scores in
  let reference_based_score :=
    if has_gold_standard && truthy (VList (VFloat <$> ref_based_scores))
    then Some (average ref_based_scores) else None in
  let reference_free_score :=
    if truthy (VList (VFloat <$> ref_free_scores))
    then Some (average ref_free_scores) else None in
  let aggregated_metrics :=
    {| reference_based_score := reference_based_score;
       reference_free_score := reference_free_score;
       human_score := (42 # 10)%Q;
       summary_statistics := summary_stats;
       metrics_evaluation_model := evaluation_model self;
       metrics_n_way_sampling := n_way_sampling self |} in
  _ ← logging INFO "Aggregated Evaluation Metrics: %s" [metrics_value aggregated_metrics];
  mret aggregated_metrics.

(** [Evaluator(repository, config).evaluate()] *)
Definition run (file : Planner.yaml_file) (repository : repo) (config : value)
  : M metrics :=
  evaluator ← init file repository config;
  evaluate evaluator.

End Evaluator.

(* ================================================================= *)
(** ** The rules of the specification, and the shapes of input the
       extraction loops accept *)

Module Spec.
Import Py.

(** The trimmed text value of a [{text}] record or of a plain string. *)
Definition text_of (item : value) : option string :=
  match item with
  | VDict d =>
      match d !! "text" with
      | Some (VStr s) => Some (strip s)
      | _ => None
      end
  | VStr s => Some (strip s)
  | _ => None
  end.

Definition nonempty (s : string) : bool := negb (String.eqb s EmptyString).

(** "Concatenate the non-empty trimmed text values with single spaces." *)
Definition joined_texts (items : list value) : string :=
  join " " (List.filter nonempty (omap text_of items)).

(** The two sub-rules of the abstract extraction: a sequence, a string. *)
Definition sub_rules (v : option value) : option string :=
  match v with
  | Some (VList items) => Some (joined_texts items)
  | Some (VStr s) => Some (strip s)
  | _ => None
  end.

(** [raw.pdfParse.abstract] *)
Definition pdf_parse_abstract (raw : dict) : option value :=
  match raw !! "pdf_parse" with
  | Some (VDict pdf_parse) => pdf_parse !! "abstract"
  | _ => None
  end.

(** The abstract rule as the specification words it: the two sub-rules
    on [raw.abstract], otherwise on [raw.pdfParse.abstract], otherwise
    the empty string. *)
Definition abstract_rule (raw : dict) : string :=
  match sub_rules (raw !! "abstract") with
  | Some text => text
  | None => default EmptyString (sub_rules (pdf_parse_abstract raw))
  end.

(** The rule with the guard of the code: [raw.abstract] counts only when
    it is present and not empty, and then it alone decides. *)
Definition guarded_abstract_rule (raw : dict) : string :=
  let from_pdf_parse := default EmptyString (sub_rules (pdf_parse_abstract raw)) in
  match raw !! "abstract" with
  | Some a =>
      if truthy a then default EmptyString (sub_rules (Some a))
      else from_pdf_parse
  | None => from_pdf_parse
  end.

(** An item whose text, when it has one, is a string. *)
Definition text_is_str (item : value) : bool :=
  match item with
  | VDict d =>
      match d !! "text" with
      | Some (VStr _) | None => true
      | Some _ => false
      end
  | _ => true
  end.

Definition texts_are_str (v : value) : bool :=
  match v with
  | VList items => forallb text_is_str items
  | _ => true
  end.

Definition field_texts_are_str (raw : dict) (key : string) : bool :=
  match raw !! key with
  | Some v => texts_are_str v
  | None => true
  end.

(** [pdf_parse], when present, is a mapping, and the texts of its
    abstract are strings. *)
Definition pdf_parse_well_shaped (raw : dict) : bool :=
  match raw !! "pdf_parse" with
  | None => true
  | Some (VDict pdf_parse) => field_texts_are_str pdf_parse "abstract"
  | Some _ => false
  end.

(** The records [parse] handles without an exception. *)
Definition well_shaped (raw : dict) : bool :=
  field_texts_are_str raw "abstract" && pdf_parse_well_shaped raw
  && field_texts_are_str raw "body_text" && field_texts_are_str raw "back_matter".

(** A plain string entry that is not blank. *)
Definition not_blank (item : value) : bool :=
  match item with
  | VStr s => nonempty (strip s)
  | _ => true
  end.

Definition not_plain (item : value) : bool :=
  match item with
  | VStr _ => false
  | _ => true
  end.

(** The records on which the abstract extraction is stated: texts are
    strings, the sequence [raw.abstract] has no blank plain string,
    [pdf_parse] is a mapping and the sequence [pdf_parse.abstract] has
    no plain string. *)
Definition abstract_well_shaped (raw : dict) : bool :=
  let pdf_ok :=
    match raw !! "pdf_parse" with
    | None => true
    | Some (VDict pdf_parse) =>
        match pdf_parse !! "abstract" with
        | Some (VList items) =>
            forallb (fun item => text_is_str item && not_plain item) items
        | _ => true
        end
    | Some _ => false
    end in
  match raw !! "abstract" with
  | Some a =>
      if truthy a then
        match a with
        | VList items =>
            forallb (fun item => text_is_str item && not_blank item) items
        | _ => true
        end
      else pdf_ok
  | None => pdf_ok
  end.

Definition result_map {A B} (f : A -> B) (r : result A) : result B :=
  match r with
  | Ok a => Ok (f a)
  | Raise e => Raise e
  end.

(** The record [analyze_modules] emits for a file name that is a string:
    the entry of the table, or the fallback. *)
Definition analysis_of (name : string) : Analyzer.analysis :=
  {| Analyzer.file_name := VStr name;
     Analyzer.analysis_spec :=
       default Analyzer.default_spec (Analyzer.module_specs !! name) |}.

(** The warning logged for a name that misses the table. *)
Definition miss_warning (name : string) : log_entry :=
  Log WARNING "No predefined specification for %s. Using default values."
      [VStr name].

Definition miss_warnings (names : list string) : list log_entry :=
  names ≫= (fun name => match Analyzer.module_specs !! name with
                        | Some _ => []
                        | None => [miss_warning name]
                        end).

(** The scores of [n] samples: 4.0 for the reference-based prompt when
    there is a gold standard, 4.5 for the reference-free prompt, and no
    score without a sample. *)
Definition sampled_scores (has_gold_standard : bool) (n : nat)
  : option Q * option Q :=
  match n with
  | O => (None, None)
  | S _ => (if has_gold_standard then Some (4 # 1)%Q else None, Some (9 # 2)%Q)
  end.

(** The two score fields of the evaluation result. *)
Definition score_fields (m : Evaluator.metrics) : option Q * option Q :=
  (Evaluator.reference_based_score m, Evaluator.reference_free_score m).

End Spec.

(* ================================================================= *)
(** ** Sample inputs *)

Module Sample.
Import Py.

(** [sample_paper_json] of [paper_parser.py]. *)
Definition paper_json : dict :=
  {[ "paper_id" := VStr "1234";
     "title" := VStr "Sample Paper Title";
     "abstract" :=
       VList [VDict {[ "text" := VStr "This is the abstract of the sample paper." ]}];
     "body_text" :=
       VList [VDict {[ "text" := VStr "Introduction: This section introduces the paper." ]};
              VDict {[ "text" := VStr "Method: This section explains the methodology." ]}];
     "back_matter" :=
       VList [VDict {[ "text" := VStr "Figure 1: Sample figure description." ]}];
     "ref_entries" :=
       VDict {[ "REF1" := VDict {[ "text" := VStr "Reference 1 details.";
                                   "num" := VInt 1 ]} ]} ]}.

(** The sample without its title. *)
Definition paper_without_title : dict := delete "title" paper_json.

(** A record with both required fields whose abstract entry has a null
    text: [{"paper_id": "1234", "title": "Sample Paper Title",
    "abstract": [{"text": null}]}]. *)
Definition paper_with_null_text : dict :=
  {[ "paper_id" := VStr "1234";
     "title" := VStr "Sample Paper Title";
     "abstract" := VList [VDict {[ "text" := VNone ]}] ]}.

(** A record whose abstract is the empty string and whose [pdf_parse]
    has one. *)
Definition paper_with_empty_abstract : dict :=
  {[ "paper_id" := VStr "1234";
     "title" := VStr "Sample Paper Title";
     "abstract" := VStr EmptyString;
     "pdf_parse" := VDict {[ "abstract" := VStr "From the PDF" ]} ]}.

(** A string of [n] letters. *)
Fixpoint letters (n : nat) : string :=
  match n with
  | O => EmptyString
  | S n' => String "a" (letters n')
  end.

(** A parsed paper whose abstract has [n] characters. *)
Definition paper_with_abstract (n : nat) : dict :=
  {[ "paper_id" := VStr "1234";
     "title" := VStr "Sample Paper Title";
     "abstract" := VStr (letters n) ]}.

(** A [config.yaml] whose training section is left empty:
    [training:] followed by nothing. *)
Definition config_with_empty_section : value :=
  VDict {[ "training" := VNone;
           "evaluation" := VDict {[ "n_way_sampling" := VInt 3 ]} ]}.

(** A [config.yaml] that holds a sequence, not a mapping. *)
Definition config_sequence : value := VList [VStr "training"].

(** [sample_repository] of [evaluation.py]. *)
Definition repository : gmap string string :=
  let nl := String (ascii_of_nat 10) EmptyString in
  {[ "main.py" := "def main():" ++ nl ++ "    print('Hello World')" ++ nl;
     "paper_parser.py" := "def parse():" ++ nl ++ "    return {}" ++ nl;
     "planner.py" := "def plan():" ++ nl ++ "    return {}" ++ nl;
     "analyzer.py" := "def analyze():" ++ nl ++ "    return []" ++ nl;
     "code_generator.py" := "def generate():" ++ nl ++ "    return {}" ++ nl;
     "evaluation.py" := "def evaluate():" ++ nl ++ "    return {}" ++ nl ]}.

(** [sample_config] of [evaluation.py]. *)
Definition config : dict :=
  {[ "training" := VDict {[ "learning_rate" := VStr "0.001";
                            "batch_size" := VStr "32";
                            "epochs" := VStr "10" ]};
     "evaluation" := VDict {[ "n_way_sampling" := VInt 8;
                              "evaluation_model" := VStr "o3-mini-high" ]} ]}.

(** The sample analysis list of [code_generator.py], reduced to its
    entry for [code_generator.py]. *)
Definition analysis : value :=
  VList [VDict {[ "file_name" := VStr "code_generator.py";
                  "functionality" :=
                    VStr "Generates code templates for repository modules based on analysis and overall plan." ]}].

(** The plan of the configuration [{learningRate: "0.01", batchSize:
    "64", epochs: "5", nWaySampling: 3, evaluationModel: "gpt-x"}]. *)
Definition plan : value :=
  VDict {[ "config" :=
             VDict {[ "training" := VDict {[ "learning_rate" := VStr "0.01";
                                             "batch_size" := VStr "64";
                                             "epochs" := VStr "5" ]};
                      "evaluation" := VDict {[ "n_way_sampling" := VInt 3;
                                               "evaluation_model" := VStr "gpt-x" ]} ]} ]}.

(** No [repr] is needed on the samples. *)
Definition no_repr (v : value) : string := EmptyString.

(** An order of the keys of a dict; the samples iterate lists only. *)
Definition key_order (d : dict) : list string := (map_to_list d).*1.

End Sample.

(* ================================================================= *)
(** ** main.py *)

Module Main.
Import Py.

(** [try: body except Exception: handler]: what [body] logged is kept. *)
Definition try_except {A} (body : M A) (handler : M A) : M A :=
  match body with
  | (l, Ok a) => (l, Ok a)
  | (l, Raise _) => let '(l', r) := handler in ((l ++ l')%list, r)
  end.

(** The literal returned by [load_configuration] for an empty document
    and from its [except] branch. *)
Definition default_configuration : value :=
  VDict {[ "training" := VDict {[ "learning_rate" := VStr "0.001";
                                  "batch_size" := VStr "32";
                                  "epochs" := VStr "10" ]};
           "evaluation" := VDict {[ "n_way_sampling" := VInt 8;
                                    "evaluation_model" := VStr "o3-mini-high" ]} ]}.

(** [if key not in section: section[key] = dflt] *)
Definition ensure_key (section : value) (key : string) (dflt : value) : M value :=
  present ← is_in key section;
  if present : bool then mret section
  else Analyzer.setitem section key dflt.

(** The body of the [try] of [load_configuration], once the document
    is read. *)
Definition fill_configuration (document : value) : M value :=
  config ←
    (if negb (truthy document) then
       _ ← logging WARNING
             "Config file is empty. Using default configuration values." [];
       mret default_configuration
     else mret document);
  training_config ← get config "training" (VDict ∅);
  training_config ← ensure_key training_config "learning_rate" (VStr "0.001");
  training_config ← ensure_key training_config "batch_size" (VStr "32");
  training_config ← ensure_key training_config "epochs" (VStr "10");
  config ← Analyzer.setitem config "training" training_config;
  evaluation_config ← get config "evaluation" (VDict ∅);
  evaluation_config ← ensure_key evaluation_config "n_way_sampling" (VInt 8);
  evaluation_config ←
    ensure_key evaluation_config "evaluation_model" (VStr "o3-mini-high");
  config ← Analyzer.setitem config "evaluation" evaluation_config;
  mret config.

(** [load_configuration] *)
Definition load_configuration (file : Planner.yaml_file) : M value :=
  let failed :=
    _ ← logging ERROR "Failed to load config file: %s" [];
    mret default_configuration in
  match file with
  | Planner.Unreadable => failed
  | Planner.Loaded document => try_except (fill_configuration document) failed
  end.

(** The dictionary [PaperParser.parse] builds, which [run_pipeline]
    hands to [Planner]. *)
Definition paper_dict (paper : PaperParser.Paper) : dict :=
  {[ "paper_id" := VStr (PaperParser.paper_id paper);
     "title" := VStr (PaperParser.title paper);
     "abstract" := VStr (PaperParser.abstract paper);
     "body_text" := VStr (PaperParser.body_text paper);
     "figures" := VList (VStr <$> PaperParser.figures paper);
     "ref_entries" := VDict (PaperParser.ref_entries paper) ]}.

End Main.

(* ================================================================= *)
(** ** Descriptions used by the further properties *)

Module Describe.
Import Py.



(** A value that is not a mapping. *)
Definition not_dict (v : value) : bool :=
  match v with
  | VDict _ => false
  | _ => true
  end.

(** A value [range] does not accept. *)
Definition not_a_count (v : value) : bool :=
  match v with
  | VInt _ | VBool _ => false
  | _ => true
  end.

(** A value the operator [in] does not accept on its right. *)
Definition not_container (v : value) : bool :=
  match v with
  | VNone | VBool _ | VInt _ | VFloat _ => true
  | _ => false
  end.

(** A string that is empty or starts with a character that is not
    whitespace. *)
Definition starts_clean (s : string) : bool :=
  match s with
  | EmptyString => true
  | String c _ => negb (isspace c)
  end.

End Describe.

(* ================================================================= *)
(** ** Computations: how a sequence of steps ends *)

Import Py.

Lemma outcome_bind {A B} (m : M A) (k : A -> M B) :
  outcome (m ≫= k) =
  match outcome m with
  | Ok a => outcome (k a)
  | Raise e => Raise e
  end.
Proof.
  unfold mbind, M_bind, bind, outcome.
  destruct m as [l [a|e]]; simpl; [|reflexivity].
  destruct (k a); reflexivity.
Qed.

Lemma outcome_ret {A} (a : A) : outcome (mret a : M A) = Ok a.
Proof. reflexivity. Qed.

Lemma outcome_raise {A} (e : exn) : outcome (raise e : M A) = Raise e.
Proof. reflexivity. Qed.

Lemma outcome_logging lv fmt xs : outcome (logging lv fmt xs) = Ok tt.
Proof. reflexivity. Qed.

Lemma logged_bind {A B} (m : M A) (k : A -> M B) :
  logged (m ≫= k) =
  match outcome m with
  | Ok a => (logged m ++ logged (k a))%list
  | Raise e => logged m
  end.
Proof.
  unfold mbind, M_bind, bind, outcome, logged.
  destruct m as [l [a|e]]; simpl; [|reflexivity].
  destruct (k a); reflexivity.
Qed.

Create Rewrite HintDb outcome.
#[export] Hint Rewrite @outcome_bind @outcome_ret @outcome_raise outcome_logging
  : outcome.

Ltac steps := autorewrite with outcome; try reflexivity.

(* ================================================================= *)
(** ** paper_parser.py: required fields, extraction *)

Import PaperParser Spec.

Lemma outcome_clean_text_str s : outcome (_clean_text (VStr s)) = Ok (strip s).
Proof. reflexivity. Qed.

#[export] Hint Rewrite outcome_clean_text_str : outcome.

Lemma init_missing (json : dict) :
  json !! "paper_id" = None \/ json !! "title" = None ->
  outcome (init json)
  = Raise (ValueError "Paper JSON must contain 'paper_id' and 'title' fields.").
Proof.
  intros H. unfold init.
  destruct H as [H|H]; rewrite H.
  - rewrite bool_decide_eq_false_2 by (intros [? ?]; discriminate). reflexivity.
  - rewrite bool_decide_eq_false_2 with (P := is_Some None)
      by (intros [? ?]; discriminate).
    rewrite orb_true_r. reflexivity.
Qed.

Lemma init_present (json : dict) id ti :
  json !! "paper_id" = Some id -> json !! "title" = Some ti ->
  init json = mret {| paper_json := json |}.
Proof.
  intros Hid Hti. unfold init. rewrite Hid, Hti.
  rewrite !bool_decide_eq_true_2 by eauto. reflexivity.
Qed.

(** The loop of the extraction ends without an exception on items whose
    texts are strings. *)
Lemma collect_segments_returns items :
  forallb text_is_str items = true ->
  forall segments, exists segments',
    outcome (collect_segments items segments) = Ok segments'.
Proof.
  induction items as [|item items IH]; intros Hok segments.
  - eexists. reflexivity.
  - simpl in Hok. apply andb_true_iff in Hok as [Hitem Hrest].
    specialize (IH Hrest).
    destruct item as [| | | | s | l | d]; cbn [collect_segments]; try apply IH.
    + steps. apply IH.
    + unfold text_is_str in Hitem.
      destruct (d !! "text") as [[| | | | t | |]|]; try discriminate;
        cbn [from_option]; unfold id; steps; case_match; apply IH.
Qed.

Lemma pdf_segments_returns items :
  forallb text_is_str items = true ->
  exists segments, outcome (pdf_segments items) = Ok segments.
Proof.
  induction items as [|item items IH]; intros Hok.
  - eexists. reflexivity.
  - simpl in Hok. apply andb_true_iff in Hok as [Hitem Hrest].
    destruct (IH Hrest) as [segments Hsegments].
    destruct item as [| | | | s | l | d]; cbn [pdf_segments]; eauto.
    unfold text_is_str in Hitem.
    destruct (d !! "text") as [[| | | | t | |]|]; try discriminate;
      cbn [from_option]; unfold id; steps; case_match; eauto;
      steps; rewrite Hsegments; eauto.
Qed.

Lemma abstract_from_pdf_parse_returns (json : dict) :
  pdf_parse_well_shaped json = true ->
  exists text, outcome (abstract_from_pdf_parse json) = Ok text.
Proof.
  unfold pdf_parse_well_shaped, abstract_from_pdf_parse, field_texts_are_str.
  destruct (json !! "pdf_parse") as [[| | | | | | pdf]|]; try discriminate;
    [|intros _; steps; eauto].
  intros Hok. unfold is_in, getitem. steps.
  destruct (pdf !! "abstract") as [pdf_abstract|] eqn:Habs.
  - rewrite bool_decide_eq_true_2 by eauto. steps.
    destruct pdf_abstract as [| | | | s | items |]; steps; eauto.
    destruct (pdf_segments_returns items Hok) as [segments ->]. eauto.
  - rewrite bool_decide_eq_false_2 by (intros [? ?]; discriminate).
    steps. eauto.
Qed.

Lemma parse_abstract_returns (json : dict) :
  field_texts_are_str json "abstract" = true ->
  pdf_parse_well_shaped json = true ->
  exists text, outcome (parse_abstract json) = Ok text.
Proof.
  unfold field_texts_are_str, parse_abstract. intros Habs Hpdf.
  destruct (json !! "abstract") as [a|];
    [|apply abstract_from_pdf_parse_returns, Hpdf].
  destruct (truthy a); [|apply abstract_from_pdf_parse_returns, Hpdf].
  destruct a as [| | | | s | items |]; steps; eauto.
  destruct (collect_segments_returns items Habs []) as [segments ->]. eauto.
Qed.

Lemma parse_body_text_returns (json : dict) :
  field_texts_are_str json "body_text" = true ->
  exists text, outcome (parse_body_text json) = Ok text.
Proof.
  unfold field_texts_are_str, parse_body_text. intros Hok.
  destruct (json !! "body_text") as [[| | | | | items |]|]; steps; eauto.
  destruct (collect_segments_returns items Hok []) as [segments ->]. eauto.
Qed.

Lemma parse_figures_returns (json : dict) :
  field_texts_are_str json "back_matter" = true ->
  exists figs, outcome (parse_figures json) = Ok figs.
Proof.
  unfold field_texts_are_str, parse_figures. intros Hok.
  destruct (json !! "back_matter") as [[| | | | | items |]|]; steps; eauto.
  apply collect_segments_returns, Hok.
Qed.

Lemma parse_ref_entries_returns (json : dict) :
  exists refs, outcome (parse_ref_entries json) = Ok refs.
Proof.
  unfold parse_ref_entries.
  destruct (json !! "ref_entries") as [[| | | | | | d]|]; steps; eauto.
Qed.

(** How [parse] ends, in terms of its four extraction steps. *)
Lemma parse_outcome repr_other (json : dict) :
  outcome (parse repr_other {| paper_json := json |})
  = match outcome (parse_abstract json) with
    | Raise e => Raise e
    | Ok abstract_text =>
        match outcome (parse_body_text json) with
        | Raise e => Raise e
        | Ok body =>
            match outcome (parse_figures json) with
            | Raise e => Raise e
            | Ok figs =>
                match outcome (parse_ref_entries json) with
                | Raise e => Raise e
                | Ok refs =>
                    Ok {| paper_id :=
                            strip (str repr_other
                                     (default (VStr EmptyString) (json !! "paper_id")));
                          title :=
                            strip (str repr_other
                                     (default (VStr EmptyString) (json !! "title")));
                          abstract := abstract_text;
                          body_text := body;
                          figures := figs;
                          ref_entries := refs |}
                end
            end
        end
    end.
Proof.
  unfold parse. cbn [paper_json]. steps.
  repeat (case_match; steps).
Qed.

(** C1 (as amended). A record without [paper_id] or without [title] is
    refused by the constructor with [ValueError] (the specification's
    [InvalidInputError]). For a record with both, whatever [parse]
    returns carries [str] of the two input values, trimmed (for a string
    input, the input trimmed), and [parse] does return when the record
    is well shaped: the [text] of every entry of [abstract],
    [pdf_parse.abstract], [body_text] and [back_matter] is a string, and
    [pdf_parse], when present, is a mapping. *)
Theorem parse_required_fields (repr_other : value -> string) (json : dict) :
  (json !! "paper_id" = None \/ json !! "title" = None ->
   outcome (PaperParser.run repr_other json)
   = Raise (ValueError "Paper JSON must contain 'paper_id' and 'title' fields."))
  /\ (forall pid ti,
        json !! "paper_id" = Some pid -> json !! "title" = Some ti ->
        (forall paper,
            outcome (PaperParser.run repr_other json) = Ok paper ->
            paper_id paper = strip (str repr_other pid)
            /\ title paper = strip (str repr_other ti))
        /\ (well_shaped json = true ->
            exists paper, outcome (PaperParser.run repr_other json) = Ok paper)).
Proof.
  split.
  - intros H. unfold PaperParser.run. rewrite outcome_bind, init_missing by exact H.
    reflexivity.
  - intros pid ti Hid Hti. unfold PaperParser.run.
    rewrite (init_present json pid ti Hid Hti), outcome_bind, outcome_ret.
    rewrite parse_outcome, Hid, Hti. cbn [from_option]. unfold id.
    split.
    + intros paper H. repeat case_match; try discriminate.
      injection H as <-. split; reflexivity.
    + unfold well_shaped. rewrite !andb_true_iff.
      intros [[[Habs Hpdf] Hbody] Hfig].
      destruct (parse_abstract_returns json Habs Hpdf) as [? ->].
      destruct (parse_body_text_returns json Hbody) as [? ->].
      destruct (parse_figures_returns json Hfig) as [? ->].
      destruct (parse_ref_entries_returns json) as [? ->].
      eauto.
Qed.

(** C1, at the sample of [paper_parser.py] and at the sample without its
    title. *)
Lemma parse_required_fields_witness :
  outcome (PaperParser.run Sample.no_repr Sample.paper_without_title)
  = Raise (ValueError "Paper JSON must contain 'paper_id' and 'title' fields.")
  /\ exists paper,
       outcome (PaperParser.run Sample.no_repr Sample.paper_json) = Ok paper
       /\ paper_id paper = "1234" /\ title paper = "Sample Paper Title".
Proof.
  split.
  - apply (parse_required_fields Sample.no_repr Sample.paper_without_title).
    right. vm_compute. reflexivity.
  - destruct (parse_required_fields Sample.no_repr Sample.paper_json) as [_ H].
    destruct (H (VStr "1234") (VStr "Sample Paper Title")) as [Hfields Hreturns];
      [vm_compute; reflexivity .. |].
    destruct Hreturns as [paper Hpaper]; [vm_compute; reflexivity|].
    exists paper. split; [exact Hpaper|]. exact (Hfields paper Hpaper).
Defined.

(** C1 as stated fails: a record with both required fields on which
    [parse] raises. *)
Lemma parse_null_text_raises :
  is_Some (Sample.paper_with_null_text !! "paper_id")
  /\ is_Some (Sample.paper_with_null_text !! "title")
  /\ outcome (PaperParser.run Sample.no_repr Sample.paper_with_null_text)
     = Raise AttributeError.
Proof. vm_compute. eauto. Qed.

(* ----------------------------------------------------------------- *)
(** *** The abstract *)

Lemma truthy_str s : truthy (VStr s) = nonempty s.
Proof. reflexivity. Qed.

Lemma collect_segments_texts items :
  forallb (fun item => text_is_str item && not_blank item) items = true ->
  forall segments,
    outcome (collect_segments items segments)
    = Ok (segments ++ List.filter nonempty (omap text_of items))%list.
Proof.
  induction items as [|item items IH]; intros Hok segments.
  - cbn. rewrite app_nil_r. reflexivity.
  - cbn [forallb] in Hok. rewrite !andb_true_iff in Hok.
    destruct Hok as [[Hstr Hplain] Hrest]. specialize (IH Hrest).
    destruct item as [| | | | s | l | d]; cbn [collect_segments omap list_omap text_of];
      try apply IH.
    + steps. cbn [not_blank] in Hplain. cbn [List.filter]. rewrite Hplain.
      rewrite IH, <- app_assoc. reflexivity.
    + unfold text_is_str in Hstr.
      destruct (d !! "text") as [[| | | | t | |]|]; try discriminate;
        cbn [from_option]; unfold id; steps; rewrite truthy_str.
      * cbn [List.filter]. destruct (nonempty (strip t)); rewrite IH; [|reflexivity].
        rewrite <- app_assoc. reflexivity.
      * cbn. apply IH.
Qed.

Lemma pdf_segments_texts items :
  forallb (fun item => text_is_str item && not_plain item) items = true ->
  outcome (pdf_segments items) = Ok (List.filter nonempty (omap text_of items)).
Proof.
  induction items as [|item items IH]; intros Hok.
  - reflexivity.
  - cbn [forallb] in Hok. rewrite !andb_true_iff in Hok.
    destruct Hok as [[Hstr Hplain] Hrest]. specialize (IH Hrest).
    destruct item as [| | | | s | l | d]; cbn [pdf_segments omap list_omap text_of];
      try apply IH; try discriminate.
    unfold text_is_str in Hstr.
    destruct (d !! "text") as [[| | | | t | |]|]; try discriminate;
      cbn [from_option]; unfold id; steps; rewrite truthy_str.
    + cbn [List.filter]. destruct (nonempty (strip t)); [|apply IH].
      steps. rewrite IH. reflexivity.
    + cbn. apply IH.
Qed.

Lemma abstract_from_pdf_parse_rule (json : dict) :
  match json !! "pdf_parse" with
  | None => true
  | Some (VDict pdf_parse) =>
      match pdf_parse !! "abstract" with
      | Some (VList items) =>
          forallb (fun item => text_is_str item && not_plain item) items
      | _ => true
      end
  | Some _ => false
  end = true ->
  outcome (abstract_from_pdf_parse json)
  = Ok (default EmptyString (sub_rules (pdf_parse_abstract json))).
Proof.
  unfold abstract_from_pdf_parse, pdf_parse_abstract.
  destruct (json !! "pdf_parse") as [[| | | | | | pdf]|]; try discriminate;
    [|intros _; steps].
  unfold is_in, getitem. steps.
  destruct (pdf !! "abstract") as [pdf_abstract|] eqn:Habs.
  - rewrite bool_decide_eq_true_2 by eauto. steps.
    destruct pdf_abstract as [| | | | s | items |]; intros Hok; steps.
    rewrite (pdf_segments_texts items Hok). reflexivity.
  - rewrite bool_decide_eq_false_2 by (intros [? ?]; discriminate).
    intros _. steps.
Qed.

(** C8 (as amended). [raw.abstract] decides when it is present and not
    empty: a sequence gives the non-empty trimmed texts of its records
    and plain strings joined by single spaces, a string gives itself
    trimmed, any other value gives the empty string. When [raw.abstract]
    is absent or empty the same two sub-rules are applied to
    [raw.pdf_parse.abstract], and failing that the result is the empty
    string. Stated for the records of [abstract_well_shaped]. *)
Theorem parse_abstract_guarded_rule (json : dict) :
  abstract_well_shaped json = true ->
  outcome (parse_abstract json) = Ok (guarded_abstract_rule json).
Proof.
  unfold abstract_well_shaped, parse_abstract, guarded_abstract_rule.
  destruct (json !! "abstract") as [a|];
    [|apply abstract_from_pdf_parse_rule].
  destruct (truthy a); [|apply abstract_from_pdf_parse_rule].
  destruct a as [| | | | s | items |]; intros Hok; steps.
  rewrite (collect_segments_texts items Hok). reflexivity.
Qed.

(** C8, at the sample of [paper_parser.py]. *)
Lemma parse_abstract_guarded_rule_witness :
  outcome (parse_abstract Sample.paper_json)
  = Ok "This is the abstract of the sample paper.".
Proof.
  rewrite (parse_abstract_guarded_rule Sample.paper_json).
  - vm_compute. reflexivity.
  - vm_compute. reflexivity.
Defined.

(** C8 as stated fails: an empty string abstract is not returned
    trimmed, [pdf_parse.abstract] is used instead. *)
Lemma parse_abstract_not_spec_rule :
  outcome (parse_abstract Sample.paper_with_empty_abstract) = Ok "From the PDF"
  /\ abstract_rule Sample.paper_with_empty_abstract = EmptyString
  /\ outcome (parse_abstract Sample.paper_with_empty_abstract)
     <> Ok (abstract_rule Sample.paper_with_empty_abstract).
Proof. vm_compute. repeat split. discriminate. Qed.

(* ================================================================= *)
(** ** planner.py: the excerpt, the configuration *)

Import Planner.

Lemma take_all s n : (String.length s <= n)%nat -> take n s = s.
Proof.
  revert n. induction s as [|c s IH]; intros [|n] H; cbn in *; try reflexivity;
    try lia.
  rewrite IH by lia. reflexivity.
Qed.

Lemma append_empty (s : string) : s ++ EmptyString = s.
Proof.
  induction s as [|c s IH]; [reflexivity|].
  change (String c (s ++ EmptyString) = String c s). rewrite IH. reflexivity.
Qed.

Lemma create_overall_plan_excerpt repr_other (p : dict) (s : string) :
  p !! "abstract" = Some (VStr s) ->
  exists plan,
    outcome (create_overall_plan repr_other {| paper := p |}) = Ok plan
    /\ abstract_excerpt (paper_summary plan)
       = take 200 s ++ (if (200 <? String.length s)%nat then "..." else EmptyString).
Proof.
  intros H. unfold create_overall_plan. cbn [paper]. rewrite H.
  cbn [from_option]. unfold id, excerpt. steps.
  eexists. split; reflexivity.
Qed.

(** C3. An abstract of exactly 200 characters is its own excerpt; an
    abstract of 201 characters or more gives its first 200 characters
    followed by three dots. *)
Theorem abstract_excerpt_boundary repr_other (p : dict) (s : string) :
  p !! "abstract" = Some (VStr s) ->
  (String.length s = 200%nat ->
   exists plan,
     outcome (create_overall_plan repr_other {| paper := p |}) = Ok plan
     /\ abstract_excerpt (paper_summary plan) = s)
  /\ ((201 <= String.length s)%nat ->
      exists plan,
        outcome (create_overall_plan repr_other {| paper := p |}) = Ok plan
        /\ abstract_excerpt (paper_summary plan) = take 200 s ++ "...").
Proof.
  intros H.
  destruct (create_overall_plan_excerpt repr_other p s H) as [plan [Hplan Hex]].
  split; intros Hlen; exists plan; (split; [exact Hplan|]); rewrite Hex.
  - rewrite take_all by lia.
    replace (200 <? String.length s)%nat with false
      by (symmetry; apply Nat.ltb_ge; lia).
    apply append_empty.
  - replace (200 <? String.length s)%nat with true
      by (symmetry; apply Nat.ltb_lt; lia).
    reflexivity.
Qed.

(** C3, at abstracts of 200 and of 201 letters. *)
Lemma abstract_excerpt_boundary_witness :
  (exists plan,
      outcome (create_overall_plan Sample.no_repr
                 {| paper := Sample.paper_with_abstract 200 |}) = Ok plan
      /\ abstract_excerpt (paper_summary plan) = Sample.letters 200)
  /\ (exists plan,
        outcome (create_overall_plan Sample.no_repr
                   {| paper := Sample.paper_with_abstract 201 |}) = Ok plan
        /\ abstract_excerpt (paper_summary plan) = Sample.letters 200 ++ "...").
Proof.
  split.
  - apply (abstract_excerpt_boundary Sample.no_repr
             (Sample.paper_with_abstract 200) (Sample.letters 200));
      vm_compute; reflexivity.
  - destruct (abstract_excerpt_boundary Sample.no_repr
                (Sample.paper_with_abstract 201) (Sample.letters 201)) as [_ H];
      [vm_compute; reflexivity|].
    destruct H as [plan [Hplan Hex]]; [vm_compute; lia|].
    exists plan. split; [exact Hplan|]. rewrite Hex. vm_compute. reflexivity.
Defined.

(** The defaults of [generate_config]. *)
Lemma generate_config_of_mapping (doc training evaluation : dict) :
  doc <> ∅ ->
  default (VDict ∅) (doc !! "training") = VDict training ->
  default (VDict ∅) (doc !! "evaluation") = VDict evaluation ->
  outcome (generate_config (Loaded (VDict doc)))
  = Ok {[ "training" :=
            VDict {[ "learning_rate" :=
                       default (VStr "0.001") (training !! "learning_rate");
                     "batch_size" := default (VStr "32") (training !! "batch_size");
                     "epochs" := default (VStr "10") (training !! "epochs") ]};
          "evaluation" :=
            VDict {[ "n_way_sampling" :=
                       default (VInt 8) (evaluation !! "n_way_sampling");
                     "evaluation_model" :=
                       default (VStr "o3-mini-high")
                               (evaluation !! "evaluation_model") ]} ]}.
Proof.
  intros Hdoc Htraining Hevaluation.
  unfold generate_config, load_or_empty. cbn [truthy].
  rewrite bool_decide_eq_false_2 by exact Hdoc. cbn [negb].
  unfold get. steps. rewrite Htraining, Hevaluation. steps.
Qed.

Lemma generate_config_unreadable :
  outcome (generate_config Unreadable)
  = Ok {[ "training" := VDict {[ "learning_rate" := VStr "0.001";
                                 "batch_size" := VStr "32";
                                 "epochs" := VStr "10" ]};
          "evaluation" := VDict {[ "n_way_sampling" := VInt 8;
                                   "evaluation_model" := VStr "o3-mini-high" ]} ]}.
Proof. vm_compute. reflexivity. Qed.

Lemma generate_config_empty_document (doc : value) :
  truthy doc = false ->
  outcome (generate_config (Loaded doc)) = outcome (generate_config Unreadable).
Proof.
  intros H. unfold generate_config, load_or_empty. rewrite H. cbn [negb].
  rewrite !outcome_bind. reflexivity.
Qed.

(** C7 fails on the code: a document whose [training] section is left
    empty, and a document that is a sequence, make [generate_config]
    raise [AttributeError]. *)
Theorem generate_config_raises :
  outcome (generate_config (Loaded Sample.config_with_empty_section))
  = Raise AttributeError
  /\ outcome (generate_config (Loaded Sample.config_sequence))
     = Raise AttributeError.
Proof. split; vm_compute; reflexivity. Qed.

(* ================================================================= *)
(** ** analyzer.py: the table of specifications, the default file list *)

Import Analyzer.

Lemma module_specs_miss (name : string) :
  name ∉ default_file_list -> module_specs !! name = None.
Proof.
  unfold default_file_list. rewrite !not_elem_of_cons.
  intros (? & ? & ? & ? & ? & ? & _). unfold module_specs.
  rewrite !lookup_insert_ne by congruence.
  apply lookup_singleton_ne. congruence.
Qed.

Lemma analyze_one_string (name : string) :
  analyze_one (VStr name)
  = (match module_specs !! name with
     | Some _ => []
     | None => [miss_warning name]
     end, Ok (analysis_of name)).
Proof.
  unfold analyze_one, lookup_spec, analysis_of.
  destruct (module_specs !! name); reflexivity.
Qed.

Lemma analyze_loop_strings (names : list string) (analysis_list : list analysis) :
  analyze_loop (VStr <$> names) analysis_list
  = (miss_warnings names, Ok (analysis_list ++ (analysis_of <$> names))%list).
Proof.
  revert analysis_list.
  induction names as [|name names IH]; intros analysis_list.
  - cbn. rewrite app_nil_r. reflexivity.
  - cbn [fmap list_fmap analyze_loop]. rewrite analyze_one_string.
    unfold mbind, M_bind, bind. fold (@fmap list _ _ _ VStr names).
    rewrite IH, <- app_assoc. reflexivity.
Qed.

Lemma analyze_modules_strings key_order (self : Analyzer.t) (names : list string) :
  file_list self = VList (VStr <$> names) ->
  analyze_modules key_order self
  = ((miss_warnings names
      ++ [Log INFO "Module analysis completed successfully with %d modules analyzed."
              [VInt (Z.of_nat (length names))]])%list,
     Ok (analysis_of <$> names)).
Proof.
  intros H. unfold analyze_modules. rewrite H. unfold iterate.
  unfold mbind, M_bind, mret, M_ret, bind, ret.
  rewrite analyze_loop_strings. cbn [app logging].
  rewrite length_fmap. reflexivity.
Qed.

(** C6 (as amended). A file name of the list that is none of the six
    known names gets, at its place in the result of [analyze_modules],
    the fallback spec: the functionality "No specific functionality
    defined." and empty inputs, outputs and dependencies. The miss is
    logged as a warning; no exception is raised and, on a list of
    strings, nothing is logged as an error. *)
Theorem analyze_unknown_module key_order (self : Analyzer.t) (names : list string)
    (i : nat) (name : string) :
  file_list self = VList (VStr <$> names) ->
  names !! i = Some name ->
  name ∉ default_file_list ->
  exists analysis_list,
    outcome (analyze_modules key_order self) = Ok analysis_list
    /\ analysis_list !! i
       = Some {| file_name := VStr name;
                 analysis_spec :=
                   {| functionality := "No specific functionality defined.";
                      expected_inputs := [];
                      expected_outputs := [];
                      dependencies := [] |} |}
    /\ Log WARNING "No predefined specification for %s. Using default values."
           [VStr name] ∈ logged (analyze_modules key_order self)
    /\ Forall (fun entry => level entry <> ERROR) (logged (analyze_modules key_order self)).
Proof.
  intros Hlist Hi Hname. rewrite (analyze_modules_strings key_order self names Hlist).
  exists (analysis_of <$> names). cbn [outcome logged fst snd].
  split; [reflexivity|]. split; [|split].
  - rewrite list_lookup_fmap, Hi. cbn. unfold analysis_of.
    rewrite (module_specs_miss name Hname). reflexivity.
  - apply elem_of_app. left. unfold miss_warnings.
    apply list_elem_of_bind. exists name. split.
    + rewrite (module_specs_miss name Hname). apply list_elem_of_singleton.
      reflexivity.
    + apply (list_elem_of_lookup_2 _ i), Hi.
  - apply Forall_app. split; [|repeat constructor; discriminate].
    apply Forall_forall. intros entry Hentry.
    apply list_elem_of_bind in Hentry as (x & Hx & _).
    destruct (module_specs !! x); [inversion Hx|].
    apply list_elem_of_singleton in Hx as ->. discriminate.
Qed.

(** C6, at a file list that holds [utils.py] after [main.py]. *)
Lemma analyze_unknown_module_witness :
  exists analysis_list,
    outcome (analyze_modules Sample.key_order
               {| plan := ∅; architecture_design := VDict ∅;
                  file_list := VList [VStr "main.py"; VStr "utils.py"] |})
    = Ok analysis_list
    /\ functionality <$> (analysis_spec <$> analysis_list !! 1%nat)
       = Some "No specific functionality defined.".
Proof.
  destruct (analyze_unknown_module Sample.key_order
              {| plan := ∅; architecture_design := VDict ∅;
                 file_list := VList [VStr "main.py"; VStr "utils.py"] |}
              ["main.py"; "utils.py"] 1 "utils.py")
    as (analysis_list & Hrun & Hspec & _).
  - reflexivity.
  - reflexivity.
  - vm_compute. intros H.
    repeat (apply elem_of_cons in H as [H|H]; [discriminate|]). inversion H.
  - exists analysis_list. split; [exact Hrun|]. rewrite Hspec. reflexivity.
Defined.

(** C6 as stated fails: the functionality of the fallback is not the
    empty string. *)
Lemma analyze_unknown_module_not_empty :
  ("utils.py" ∉ default_file_list)
  /\ exists a,
       outcome (Analyzer.run Sample.key_order
                  {[ "architecture_design" :=
                       VDict {[ "file_list" := VList [VStr "utils.py"] ]} ]})
       = Ok [a]
       /\ file_name a = VStr "utils.py"
       /\ functionality (analysis_spec a) <> EmptyString.
Proof.
  split.
  - intros H. repeat (apply elem_of_cons in H as [H|H]; [discriminate|]).
    inversion H.
  - eexists. split; [vm_compute; reflexivity|]. split; [reflexivity|].
    discriminate.
Qed.

(** The analysis of the six canonical files. *)
Lemma analyze_modules_default key_order (self : Analyzer.t) :
  file_list self = VList (VStr <$> default_file_list) ->
  exists analysis_list,
    outcome (analyze_modules key_order self) = Ok analysis_list
    /\ file_name <$> analysis_list = VStr <$> default_file_list.
Proof.
  intros H. unfold analyze_modules. rewrite H.
  eexists. split; vm_compute; reflexivity.
Qed.

Lemma init_default_file_list (p : dict) :
  (p !! "architecture_design" = None
   \/ exists d, p !! "architecture_design" = Some (VDict d)
                /\ truthy (default (VList []) (d !! "file_list")) = false) ->
  exists self,
    outcome (Analyzer.init p) = Ok self
    /\ file_list self = VList (VStr <$> default_file_list).
Proof.
  intros [H|(d & H & Hfalsy)]; unfold Analyzer.init; rewrite H;
    cbn [from_option]; unfold id.
  - eexists. split; vm_compute; reflexivity.
  - cbn [truthy]. destruct (decide (d = ∅)) as [->|Hd].
    + rewrite bool_decide_eq_true_2 by reflexivity. cbn [negb].
      unfold setitem, get. steps. rewrite lookup_insert_eq. cbn [from_option].
      unfold id. eexists. split; reflexivity.
    + rewrite bool_decide_eq_false_2 by exact Hd. cbn [negb].
      unfold get. steps. rewrite Hfalsy. cbn [negb]. steps.
      eexists. split; reflexivity.
Qed.

(** What the constructor logs when it takes the canonical list: one
    warning, the first when the design is missing or empty, the second
    when the design has entries but no usable file list. *)
Lemma init_default_logged (p : dict) :
  (p !! "architecture_design" = None
   \/ exists d, p !! "architecture_design" = Some (VDict d)
                /\ truthy (default (VList []) (d !! "file_list")) = false) ->
  exists message, logged (Analyzer.init p) = [Log WARNING message []].
Proof.
  intros [H|(d & H & Hfalsy)]; unfold Analyzer.init; rewrite H;
    cbn [from_option]; unfold id.
  - eexists. vm_compute. reflexivity.
  - cbn [truthy]. destruct (decide (d = ∅)) as [->|Hd].
    + rewrite bool_decide_eq_true_2 by reflexivity. cbn [negb].
      eexists. vm_compute. reflexivity.
    + rewrite bool_decide_eq_false_2 by exact Hd. cbn [negb].
      unfold get. rewrite logged_bind. steps. rewrite logged_bind. steps.
      rewrite Hfalsy. cbn [negb]. rewrite !logged_bind. steps.
      eexists. reflexivity.
Qed.

Lemma analyze_modules_default_logged key_order (self : Analyzer.t) :
  file_list self = VList (VStr <$> default_file_list) ->
  logged (analyze_modules key_order self)
  = [Log INFO "Module analysis completed successfully with %d modules analyzed."
         [VInt 6]].
Proof.
  intros H. unfold analyze_modules. rewrite H. vm_compute. reflexivity.
Qed.

(** C10. When the plan has no [architecture_design], or the design is a
    dict that has no [file_list] or an empty one, the constructor takes
    the six canonical file names, logging one warning, and
    [analyze_modules] returns, without an exception, one record per name
    in that order (so not an empty list); nothing else is logged but the
    closing line of the analysis. *)
Theorem analyze_modules_default_file_list key_order (p : dict) :
  (p !! "architecture_design" = None
   \/ exists d, p !! "architecture_design" = Some (VDict d)
                /\ (d !! "file_list" = None
                    \/ exists v, d !! "file_list" = Some v /\ truthy v = false)) ->
  exists analysis_list,
    outcome (Analyzer.run key_order p) = Ok analysis_list
    /\ file_name <$> analysis_list
       = [VStr "main.py"; VStr "paper_parser.py"; VStr "planner.py";
          VStr "analyzer.py"; VStr "code_generator.py"; VStr "evaluation.py"]
    /\ analysis_list <> []
    /\ exists message,
         logged (Analyzer.run key_order p)
         = [Log WARNING message [];
            Log INFO "Module analysis completed successfully with %d modules analyzed."
                [VInt 6]].
Proof.
  intros H.
  assert (Hfalsy : p !! "architecture_design" = None
                   \/ exists d, p !! "architecture_design" = Some (VDict d)
                                /\ truthy (default (VList []) (d !! "file_list"))
                                   = false).
  { destruct H as [H|(d & H & Hd)]; [left; exact H|right].
    exists d. split; [exact H|].
    destruct Hd as [->|(v & -> & Hv)]; [reflexivity|exact Hv]. }
  destruct (init_default_file_list p Hfalsy) as (self & Hinit & Hlist).
  destruct (init_default_logged p Hfalsy) as (message & Hlog).
  destruct (analyze_modules_default key_order self Hlist)
    as (analysis_list & Hrun & Hnames).
  exists analysis_list. unfold Analyzer.run.
  rewrite outcome_bind, logged_bind, Hinit.
  split; [exact Hrun|]. split; [exact Hnames|]. split.
  - intros ->. discriminate Hnames.
  - exists message.
    rewrite Hlog, (analyze_modules_default_logged key_order self Hlist).
    reflexivity.
Qed.

(** C10, at the empty plan and at a plan whose design has an empty file
    list. *)
Lemma analyze_modules_default_file_list_witness :
  (exists analysis_list,
      outcome (Analyzer.run Sample.key_order ∅) = Ok analysis_list
      /\ length analysis_list = 6%nat)
  /\ (exists analysis_list,
        outcome (Analyzer.run Sample.key_order
                   {[ "architecture_design" :=
                        VDict {[ "class_diagram" := VStr "classDiagram ...";
                                 "file_list" := VList [] ]} ]})
        = Ok analysis_list
        /\ length analysis_list = 6%nat).
Proof.
  split.
  - destruct (analyze_modules_default_file_list Sample.key_order ∅)
      as (l & Hrun & Hnames & _).
    + left. reflexivity.
    + exists l. split; [exact Hrun|].
      rewrite <- (length_fmap file_name), Hnames. reflexivity.
  - destruct (analyze_modules_default_file_list Sample.key_order
                {[ "architecture_design" :=
                     VDict {[ "class_diagram" := VStr "classDiagram ...";
                              "file_list" := VList [] ]} ]})
      as (l & Hrun & Hnames & _).
    + right. eexists. split; [vm_compute; reflexivity|].
      right. exists (VList []). split; vm_compute; reflexivity.
    + exists l. split; [exact Hrun|].
      rewrite <- (length_fmap file_name), Hnames. reflexivity.
Defined.

(** C10 as stated fails: a plan whose [architecture_design] is null
    holds no [file_list]; the constructor logs that the design is
    missing and raises at the assignment of the canonical list, so
    [analyze_modules] is never reached. *)
Lemma analyze_modules_null_design_raises :
  ({[ "architecture_design" := VNone ]} : dict) !! "architecture_design" = Some VNone
  /\ outcome (Analyzer.run Sample.key_order {[ "architecture_design" := VNone ]})
     = Raise TypeError
  /\ logged (Analyzer.run Sample.key_order {[ "architecture_design" := VNone ]})
     = [Log WARNING "Architecture design missing in plan. Using default file list." []].
Proof. vm_compute. repeat split. Qed.

(* ================================================================= *)
(** ** evaluation.py: the scores *)

Import Evaluator.

Lemma simulate_prompt_free :
  outcome (_simulate_llm_evaluation prompt_free) = Ok (9 # 2)%Q.
Proof. vm_compute. reflexivity. Qed.

Lemma simulate_prompt_ref :
  outcome (_simulate_llm_evaluation (prompt_ref true)) = Ok (4 # 1)%Q.
Proof. vm_compute. reflexivity. Qed.

#[export] Hint Rewrite simulate_prompt_free simulate_prompt_ref : outcome.

Lemma sampling_outcome n (g : bool) (ref_based ref_free : list Q) :
  outcome (sampling n g (prompt_ref g) prompt_free ref_based ref_free)
  = Ok ((ref_based ++ if g then repeat (4 # 1)%Q n else [])%list,
        (ref_free ++ repeat (9 # 2)%Q n)%list).
Proof.
  revert ref_based ref_free.
  induction n as [|n IH]; intros ref_based ref_free; cbn [sampling repeat].
  - steps. destruct g; rewrite !app_nil_r; reflexivity.
  - destruct g; steps; rewrite IH, <- !app_assoc; reflexivity.
Qed.

Lemma sum_repeat (q : Q) n (a : Q) :
  (fold_left Qplus (repeat q n) a == a + inject_Z (Z.of_nat n) * q)%Q.
Proof.
  revert a. induction n as [|n IH]; intros a.
  - cbn [repeat fold_left]. change (inject_Z (Z.of_nat 0)) with 0%Q. ring.
  - cbn [repeat fold_left]. rewrite IH, Nat2Z.inj_succ.
    unfold Z.succ. rewrite inject_Z_plus. ring.
Qed.

Lemma round_half_even_integer (q : Q) (z : Z) :
  (q == inject_Z z)%Q -> round_half_even q = z.
Proof.
  intros H. unfold round_half_even.
  rewrite (Qfloor_comp q (inject_Z z) H), Qfloor_Z.
  assert (q - inject_Z z == 0)%Q as Hzero by (rewrite H; ring).
  rewrite (Qcompare_comp _ _ Hzero (1 # 2) (1 # 2) (Qeq_refl _)).
  reflexivity.
Qed.

Lemma average_repeat (q : Q) (z : Z) n :
  (q * 100 == inject_Z z)%Q ->
  average (repeat q (S n)) = Qred (z # 100).
Proof.
  intros H. unfold average, round2. f_equal. f_equal.
  apply round_half_even_integer. rewrite sum_repeat, repeat_length, <- H.
  assert (~ inject_Z (Z.of_nat (S n)) == 0)%Q as Hn.
  { change 0%Q with (inject_Z 0). rewrite inject_Z_injective. lia. }
  field. exact Hn.
Qed.

(** The two score fields of [evaluate], from the presence of the gold
    standard and the configured number of samples alone. *)
Lemma evaluate_score_fields (self : Evaluator.t) :
  result_map score_fields (outcome (evaluate self))
  = result_map
      (sampled_scores (bool_decide (is_Some (repository self !! "gold_standard"))))
      (outcome (range (n_way_sampling self))).
Proof.
  unfold evaluate, _compute_summary_statistics. steps.
  destruct (outcome (range (n_way_sampling self))) as [n|e]; [|reflexivity].
  rewrite outcome_bind, sampling_outcome. cbv beta iota. steps.
  cbn [app result_map score_fields
    reference_based_score reference_free_score].
  destruct n as [|n]; [destruct (bool_decide _); reflexivity|].
  destruct (bool_decide _);
    cbn [repeat fmap list_fmap truthy sampled_scores andb score_fields
         reference_based_score reference_free_score];
    change ((9 # 2)%Q :: repeat (9 # 2)%Q n) with (repeat (9 # 2)%Q (S n));
    try change ((4 # 1)%Q :: repeat (4 # 1)%Q n) with (repeat (4 # 1)%Q (S n));
    rewrite (average_repeat (9 # 2) 450) by reflexivity;
    try rewrite (average_repeat (4 # 1) 400) by reflexivity;
    reflexivity.
Qed.

Lemma init_explicit file (r : repo) (cfg ev : dict) :
  r <> ∅ ->
  cfg !! "evaluation" = Some (VDict ev) ->
  outcome (Evaluator.init file r (VDict cfg))
  = Ok {| repository := r;
          config := VDict cfg;
          n_way_sampling := default (VInt 8) (ev !! "n_way_sampling");
          evaluation_model :=
            default (VStr "o3-mini-high") (ev !! "evaluation_model") |}.
Proof.
  intros Hr Hev. unfold Evaluator.init.
  rewrite bool_decide_eq_false_2 by exact Hr.
  unfold get. steps. rewrite Hev. cbn [from_option]. unfold id. steps.
Qed.

(** C4. On a repository that is not empty and has no [gold_standard]
    key, with a configured number of samples of at least 1, [evaluate]
    returns no reference-based score and the reference-free score
    4.5. *)
Theorem evaluate_without_gold_standard file (r : repo) (cfg ev : dict) (n : Z) :
  r <> ∅ ->
  r !! "gold_standard" = None ->
  cfg !! "evaluation" = Some (VDict ev) ->
  ev !! "n_way_sampling" = Some (VInt n) ->
  (1 <= n)%Z ->
  exists m,
    outcome (Evaluator.run file r (VDict cfg)) = Ok m
    /\ reference_based_score m = None
    /\ reference_free_score m = Some (9 # 2)%Q.
Proof.
  intros Hr Hgold Hev Hn Hpos. unfold Evaluator.run.
  rewrite outcome_bind, (init_explicit file r cfg ev Hr Hev), Hn.
  cbn [from_option]. unfold id.
  match goal with |- context [evaluate ?s] => pose proof (evaluate_score_fields s) as H end.
  cbn [repository n_way_sampling range] in H. rewrite Hgold in H.
  rewrite bool_decide_eq_false_2 in H by (intros [? ?]; discriminate).
  rewrite outcome_ret in H. cbn [result_map] in H.
  destruct (Z.to_nat n) as [|k] eqn:Hk; [lia|].
  destruct (outcome (evaluate _)) as [m|e]; [|discriminate].
  exists m. cbn in H. injection H as H1 H2. auto.
Qed.

(** C4, at the samples of [evaluation.py]. *)
Lemma evaluate_without_gold_standard_witness :
  exists m,
    outcome (Evaluator.run Unreadable Sample.repository (VDict Sample.config)) = Ok m
    /\ reference_based_score m = None
    /\ reference_free_score m = Some (9 # 2)%Q.
Proof.
  apply (evaluate_without_gold_standard Unreadable Sample.repository Sample.config
           {[ "n_way_sampling" := VInt 8;
              "evaluation_model" := VStr "o3-mini-high" ]} 8).
  - vm_compute. discriminate.
  - vm_compute. reflexivity.
  - vm_compute. reflexivity.
  - vm_compute. reflexivity.
  - lia.
Defined.

(** The constructor reads the repository only to refuse an empty one:
    on two repositories that are not empty it ends the same way, with
    the same settings. *)
Lemma init_same_settings file (r1 r2 : repo) (cfg : value) :
  r1 <> ∅ -> r2 <> ∅ ->
  match outcome (Evaluator.init file r1 cfg), outcome (Evaluator.init file r2 cfg) with
  | Ok s1, Ok s2 =>
      repository s1 = r1 /\ repository s2 = r2
      /\ n_way_sampling s1 = n_way_sampling s2
  | Raise e1, Raise e2 => e1 = e2
  | _, _ => False
  end.
Proof.
  intros H1 H2. unfold Evaluator.init.
  rewrite !bool_decide_eq_false_2 by assumption.
  rewrite !outcome_bind.
  destruct (outcome (match cfg with
                     | VNone => load_or_empty file ERROR
                                  "Configuration file config.yaml is empty."
                                  "Failed to load config.yaml: %s"
                     | _ => mret cfg
                     end)) as [c|e]; [|reflexivity].
  rewrite !outcome_bind.
  destruct (outcome (get c "evaluation" (VDict ∅))) as [ev|e]; [|reflexivity].
  rewrite !outcome_bind.
  destruct (outcome (get ev "n_way_sampling" (VInt 8))) as [n|e]; [|reflexivity].
  rewrite !outcome_bind.
  destruct (outcome (get ev "evaluation_model" (VStr "o3-mini-high"))) as [m|e];
    [|reflexivity].
  steps. auto.
Qed.

(** C9. On two repositories that are not empty and agree on the
    presence of the key [gold_standard], with the same config (supplied,
    or absent and then read from the same [config.yaml]), the two runs
    end the same way and their two score fields are equal, whatever the
    files contain. *)
Theorem scores_ignore_file_contents file (r1 r2 : repo) (cfg : value) :
  r1 <> ∅ -> r2 <> ∅ ->
  (is_Some (r1 !! "gold_standard") <-> is_Some (r2 !! "gold_standard")) ->
  result_map score_fields (outcome (Evaluator.run file r1 cfg))
  = result_map score_fields (outcome (Evaluator.run file r2 cfg)).
Proof.
  intros H1 H2 Hgold. unfold Evaluator.run. rewrite !outcome_bind.
  pose proof (init_same_settings file r1 r2 cfg H1 H2) as Hinit.
  destruct (outcome (Evaluator.init file r1 cfg)) as [s1|e1],
           (outcome (Evaluator.init file r2 cfg)) as [s2|e2];
    try contradiction; [|congruence].
  destruct Hinit as (Hr1 & Hr2 & Hn).
  rewrite !evaluate_score_fields, Hr1, Hr2, Hn.
  rewrite (bool_decide_ext _ _ Hgold). reflexivity.
Qed.

(** C9, at the sample repository of [evaluation.py] and a repository of
    one other file. *)
Lemma scores_ignore_file_contents_witness :
  result_map score_fields
    (outcome (Evaluator.run Unreadable Sample.repository (VDict Sample.config)))
  = result_map score_fields
      (outcome (Evaluator.run Unreadable {[ "notes.txt" := "no code here" ]}
                  (VDict Sample.config))).
Proof.
  apply (scores_ignore_file_contents Unreadable Sample.repository
           {[ "notes.txt" := "no code here" ]} (VDict Sample.config)).
  - vm_compute. discriminate.
  - vm_compute. discriminate.
  - split; intros [x Hx]; vm_compute in Hx; discriminate.
Defined.

(* ================================================================= *)
(** ** The constructors and empty input *)

Lemma evaluator_init_defaults file (r : repo) (cfg : value) :
  r <> ∅ ->
  (cfg = VNone ->
   file = Unreadable \/ exists doc, file = Loaded doc /\ truthy doc = false) ->
  (cfg = VNone \/ cfg = VDict ∅) ->
  exists self,
    outcome (Evaluator.init file r cfg) = Ok self
    /\ n_way_sampling self = VInt 8
    /\ evaluation_model self = VStr "o3-mini-high".
Proof.
  intros Hr Hfile Hcfg. unfold Evaluator.init.
  rewrite bool_decide_eq_false_2 by exact Hr.
  destruct Hcfg as [->| ->].
  - destruct (Hfile eq_refl) as [->|(doc & -> & Hdoc)]; unfold load_or_empty;
      [|rewrite Hdoc; cbn [negb]]; steps; eexists; repeat split.
  - steps. eexists. repeat split.
Qed.

(** C2 (as amended). The evaluator's constructor refuses an empty
    repository, and the code generator's constructor refuses an empty
    analysis list and an empty or absent plan (the dictionary that
    carries the config), each with [ValueError] (the specification's
    [EmptyInputError]). An empty config passed to the evaluator's
    constructor is not refused: the settings take their defaults, 8
    samples and the model "o3-mini-high"; an absent config is read from
    [config.yaml], with the same defaults when the file is unreadable or
    empty. *)
Theorem constructors_on_empty_input :
  (forall file cfg,
      outcome (Evaluator.init file ∅ cfg)
      = Raise (ValueError "Repository cannot be empty."))
  /\ (forall p,
        outcome (CodeGenerator.init (VList []) p)
        = Raise (ValueError "Empty analysis list provided."))
  /\ (forall a p,
        truthy a = true -> p = VNone \/ p = VDict ∅ ->
        outcome (CodeGenerator.init a p)
        = Raise (ValueError "Empty plan dictionary provided."))
  /\ (forall file (r : repo) cfg,
        r <> ∅ ->
        cfg = VDict ∅
        \/ (cfg = VNone
            /\ (file = Unreadable
                \/ exists doc, file = Loaded doc /\ truthy doc = false)) ->
        exists self,
          outcome (Evaluator.init file r cfg) = Ok self
          /\ n_way_sampling self = VInt 8
          /\ evaluation_model self = VStr "o3-mini-high").
Proof.
  repeat split.
  - intros a p Ha [->| ->]; unfold CodeGenerator.init; rewrite Ha; reflexivity.
  - intros file r cfg Hr [->|[-> Hfile]].
    + apply evaluator_init_defaults; auto. intros; discriminate.
    + apply evaluator_init_defaults; auto.
Qed.

(** C2, at the samples of [code_generator.py] and [evaluation.py]. *)
Lemma constructors_on_empty_input_witness :
  outcome (CodeGenerator.init Sample.analysis (VDict ∅))
  = Raise (ValueError "Empty plan dictionary provided.")
  /\ exists self,
       outcome (Evaluator.init Unreadable Sample.repository VNone) = Ok self
       /\ n_way_sampling self = VInt 8.
Proof.
  destruct constructors_on_empty_input as (_ & _ & Hplan & Hconfig).
  split.
  - apply Hplan; [reflexivity|right; reflexivity].
  - destruct (Hconfig Unreadable Sample.repository VNone) as (self & Hself & Hn & _).
    + vm_compute. discriminate.
    + right. split; [reflexivity|left; reflexivity].
    + exists self. split; assumption.
Defined.

(** C2 as stated fails: the evaluator's constructor accepts an empty
    config, and an absent one. *)
Lemma evaluator_accepts_empty_config :
  (exists self,
      outcome (Evaluator.init Unreadable Sample.repository (VDict ∅)) = Ok self)
  /\ (exists self,
        outcome (Evaluator.init Unreadable Sample.repository VNone) = Ok self).
Proof. split; eexists; vm_compute; reflexivity. Qed.

(* ================================================================= *)
(** ** code_generator.py: the literal of the template *)

Import CodeGenerator.

(** C5 fails on the code: the literal opened on line 191, the template
    for [code_generator.py], is closed by the three single quotes of
    line 231, and the text that follows starts with a backslash that
    does not end its line. The tokenizer rejects the file, so that no
    template is ever generated from it. *)
Theorem template_literal_is_rejected :
  (exists body after,
      scan_literal template_source = Some (body, after)
      /\ String.length body = 1625%nat
      /\ String.prefix (String (ascii_of_nat 92) dq) after = true)
  /\ lex_template = SyntaxError.
Proof.
  split; [|vm_compute; reflexivity].
  eexists _, _. split; [vm_compute; reflexivity|].
  split; vm_compute; reflexivity.
Qed.

(** What [_inject_configuration] makes of the text of that literal, had
    the file been accepted: the three training values are in the text
    and none of the five placeholders is left. The defect of C5 is in
    the quoting of the template, not in the substitution. *)
Lemma inject_configuration_on_lexed_template :
  exists template text,
    template_as_lexed "code_generator.py"
      "Generates code templates for repository modules based on analysis and overall plan."
    = Some template
    /\ outcome (_inject_configuration Sample.no_repr
                  {| analysis := Sample.analysis; plan := Sample.plan |} template)
       = Ok text
    /\ contains "0.01" text = true
    /\ contains "64" text = true
    /\ contains "5" text = true
    /\ existsb (fun placeholder => contains placeholder text)
         ["{learning_rate}"; "{batch_size}"; "{epochs}"; "{n_way_sampling}";
          "{evaluation_model}"]
       = false.
Proof.
  eexists _, _. split; [vm_compute; reflexivity|].
  split; [vm_compute; reflexivity|].
  repeat split; vm_compute; reflexivity.
Qed.

(* ================================================================= *)
(** ** Further properties: planner.py *)

Import Describe.

Lemma length_take n s : (String.length (take n s) <= n)%nat.
Proof.
  revert s. induction n as [|n IH]; intros [|c s]; cbn; try lia.
  specialize (IH s). lia.
Qed.

Lemma length_append_string (a b : string) :
  String.length (a ++ b) = (String.length a + String.length b)%nat.
Proof.
  induction a as [|c a IH]; [reflexivity|].
  change (S (String.length (a ++ b)) = S (String.length a + String.length b)).
  rewrite IH. reflexivity.
Qed.

(** The excerpt of the plan is never longer than 203 characters, and an
    abstract of at most 200 characters is its own excerpt. *)
Theorem abstract_excerpt_is_bounded repr_other (p : dict) (s : string) :
  p !! "abstract" = Some (VStr s) ->
  exists plan,
    outcome (create_overall_plan repr_other {| paper := p |}) = Ok plan
    /\ (String.length (abstract_excerpt (paper_summary plan)) <= 203)%nat
    /\ ((String.length s <= 200)%nat -> abstract_excerpt (paper_summary plan) = s).
Proof.
  intros H.
  destruct (create_overall_plan_excerpt repr_other p s H) as [plan [Hplan Hex]].
  exists plan. split; [exact Hplan|]. rewrite Hex. split.
  - rewrite length_append_string. pose proof (length_take 200 s) as Htake.
    set (prefix := take 200 s) in *. clearbody prefix.
    destruct (200 <? String.length s)%nat; cbn [String.length]; lia.
  - intros Hlen. rewrite take_all by lia.
    replace (200 <? String.length s)%nat with false
      by (symmetry; apply Nat.ltb_ge; lia).
    apply append_empty.
Qed.

Lemma abstract_excerpt_is_bounded_witness :
  exists plan,
    outcome (create_overall_plan Sample.no_repr
               {| paper := Sample.paper_with_abstract 250 |}) = Ok plan
    /\ (String.length (abstract_excerpt (paper_summary plan)) <= 203)%nat.
Proof.
  destruct (abstract_excerpt_is_bounded Sample.no_repr
              (Sample.paper_with_abstract 250) (Sample.letters 250))
    as (plan & Hplan & Hlen & _).
  - vm_compute. reflexivity.
  - exists plan. split; assumption.
Defined.



(* ----------------------------------------------------------------- *)
(** *** The configuration *)

Lemma generate_config_shape file (cfg : dict) :
  outcome (generate_config file) = Ok cfg ->
  exists learning_rate batch_size epochs n_way_sampling evaluation_model,
    cfg = {[ "training" := VDict {[ "learning_rate" := learning_rate;
                                    "batch_size" := batch_size;
                                    "epochs" := epochs ]};
             "evaluation" := VDict {[ "n_way_sampling" := n_way_sampling;
                                      "evaluation_model" := evaluation_model ]} ]}.
Proof.
  unfold generate_config. rewrite outcome_bind.
  destruct (outcome (load_or_empty _ _ _ _)) as [loaded|]; [|discriminate].
  rewrite outcome_bind.
  destruct (outcome (get loaded "training" _)) as [training|]; [|discriminate].
  rewrite outcome_bind.
  destruct (outcome (get loaded "evaluation" _)) as [evaluation|]; [|discriminate].
  rewrite outcome_bind.
  destruct (outcome (get training "learning_rate" _)) as [lr|]; [|discriminate].
  rewrite outcome_bind.
  destruct (outcome (get training "batch_size" _)) as [bs|]; [|discriminate].
  rewrite outcome_bind.
  destruct (outcome (get training "epochs" _)) as [ep|]; [|discriminate].
  rewrite outcome_bind.
  destruct (outcome (get evaluation "n_way_sampling" _)) as [n|]; [|discriminate].
  rewrite outcome_bind.
  destruct (outcome (get evaluation "evaluation_model" _)) as [m|]; [|discriminate].
  steps. intros [= <-]. eauto 10.
Qed.

(** The configuration [generate_config] returns is a fixed point: read
    back as the document, it is returned unchanged. *)
Theorem generate_config_is_stable file (cfg : dict) :
  outcome (generate_config file) = Ok cfg ->
  outcome (generate_config (Loaded (VDict cfg))) = Ok cfg.
Proof.
  intros H.
  destruct (generate_config_shape file cfg H) as (lr & bs & ep & n & m & ->).
  rewrite (generate_config_of_mapping _
             {[ "learning_rate" := lr; "batch_size" := bs; "epochs" := ep ]}
             {[ "n_way_sampling" := n; "evaluation_model" := m ]}).
  - reflexivity.
  - apply insert_non_empty.
  - reflexivity.
  - reflexivity.
Qed.

Lemma generate_config_is_stable_witness :
  outcome (generate_config (Loaded (VDict Sample.config))) = Ok Sample.config.
Proof.
  apply (generate_config_is_stable (Loaded (VDict Sample.config))).
  vm_compute. reflexivity.
Defined.

(** For a document that is a mapping whose sections are absent or
    mappings, each field of the configuration is the value of the file
    when the key is there, and its default otherwise. *)
Theorem generate_config_field_by_field (doc training evaluation : dict) :
  doc <> ∅ ->
  (doc !! "training" = None /\ training = ∅
   \/ doc !! "training" = Some (VDict training)) ->
  (doc !! "evaluation" = None /\ evaluation = ∅
   \/ doc !! "evaluation" = Some (VDict evaluation)) ->
  outcome (generate_config (Loaded (VDict doc)))
  = Ok {[ "training" :=
            VDict {[ "learning_rate" :=
                       default (VStr "0.001") (training !! "learning_rate");
                     "batch_size" := default (VStr "32") (training !! "batch_size");
                     "epochs" := default (VStr "10") (training !! "epochs") ]};
          "evaluation" :=
            VDict {[ "n_way_sampling" :=
                       default (VInt 8) (evaluation !! "n_way_sampling");
                     "evaluation_model" :=
                       default (VStr "o3-mini-high")
                               (evaluation !! "evaluation_model") ]} ]}.
Proof.
  intros Hdoc Htraining Hevaluation.
  apply generate_config_of_mapping; [exact Hdoc| |].
  - destruct Htraining as [[-> ->]| ->]; reflexivity.
  - destruct Hevaluation as [[-> ->]| ->]; reflexivity.
Qed.

Lemma generate_config_field_by_field_witness :
  outcome (generate_config
             (Loaded (VDict {[ "training" := VDict {[ "epochs" := VInt 3 ]} ]})))
  = Ok {[ "training" := VDict {[ "learning_rate" := VStr "0.001";
                                 "batch_size" := VStr "32";
                                 "epochs" := VInt 3 ]};
          "evaluation" := VDict {[ "n_way_sampling" := VInt 8;
                                   "evaluation_model" := VStr "o3-mini-high" ]} ]}.
Proof.
  rewrite (generate_config_field_by_field
             {[ "training" := VDict {[ "epochs" := VInt 3 ]} ]}
             {[ "epochs" := VInt 3 ]} ∅).
  - reflexivity.
  - apply insert_non_empty.
  - right. reflexivity.
  - left. split; reflexivity.
Defined.

(** The evaluator built on the configuration of the planner reads the
    planner's values: it never falls back on its own defaults, and its
    constructor does not raise. *)
Theorem evaluator_reads_planner_config file file' (cfg : dict) (r : repo) :
  outcome (generate_config file) = Ok cfg ->
  r <> ∅ ->
  exists self ev,
    outcome (Evaluator.init file' r (VDict cfg)) = Ok self
    /\ cfg !! "evaluation" = Some (VDict ev)
    /\ ev !! "n_way_sampling" = Some (n_way_sampling self)
    /\ ev !! "evaluation_model" = Some (evaluation_model self).
Proof.
  intros H Hr.
  destruct (generate_config_shape file cfg H) as (lr & bs & ep & n & m & ->).
  set (document := {[ "training" := VDict {[ "learning_rate" := lr;
                                            "batch_size" := bs;
                                            "epochs" := ep ]};
                      "evaluation" := VDict {[ "n_way_sampling" := n;
                                              "evaluation_model" := m ]} ]} : dict).
  exists {| repository := r; config := VDict document;
            n_way_sampling := n; evaluation_model := m |},
         {[ "n_way_sampling" := n; "evaluation_model" := m ]}.
  split; [|split; [reflexivity|split; reflexivity]].
  rewrite (init_explicit file' r _ {[ "n_way_sampling" := n; "evaluation_model" := m ]})
    by (exact Hr || reflexivity).
  reflexivity.
Qed.

Lemma evaluator_reads_planner_config_witness :
  exists self,
    outcome (Evaluator.init Unreadable Sample.repository (VDict Sample.config))
    = Ok self
    /\ n_way_sampling self = VInt 8.
Proof.
  destruct (evaluator_reads_planner_config (Loaded (VDict Sample.config)) Unreadable
              Sample.config Sample.repository) as (self & ev & Hself & Hev & Hn & _).
  - vm_compute. reflexivity.
  - vm_compute. discriminate.
  - exists self. split; [exact Hself|].
    vm_compute in Hself. injection Hself as <-. reflexivity.
Defined.

(* ================================================================= *)
(** ** Further properties: evaluation.py *)

(** How [evaluate] ends: with the exception of [range], or with the
    statistics of the repository, the scores of the samples and the
    settings of the evaluator. *)
Lemma evaluate_outcome (self : Evaluator.t) :
  outcome (evaluate self)
  = match outcome (range (n_way_sampling self)) with
    | Raise e => Raise e
    | Ok n =>
        let scores :=
          sampled_scores
            (bool_decide (is_Some (repository self !! "gold_standard"))) n in
        Ok {| reference_based_score := fst scores;
              reference_free_score := snd scores;
              human_score := (42 # 10)%Q;
              summary_statistics :=
                {| file_count := size (repository self);
                   total_tokens :=
                     map_fold (fun _ code total => total + count_tokens false code)%nat
                              0%nat (repository self);
                   function_count :=
                     map_fold (fun _ code total => total + count_def false 0 code)%nat
                              0%nat (repository self) |};
              metrics_evaluation_model := evaluation_model self;
              metrics_n_way_sampling := n_way_sampling self |}
    end.
Proof.
  unfold evaluate, _compute_summary_statistics. steps.
  destruct (outcome (range (n_way_sampling self))) as [n|e]; [|reflexivity].
  rewrite outcome_bind, sampling_outcome. cbv beta iota. steps.
  cbn [app]. destruct n as [|n]; [destruct (bool_decide _); reflexivity|].
  destruct (bool_decide _);
    cbn [repeat fmap list_fmap truthy sampled_scores andb fst snd];
    change ((9 # 2)%Q :: repeat (9 # 2)%Q n) with (repeat (9 # 2)%Q (S n));
    try change ((4 # 1)%Q :: repeat (4 # 1)%Q n) with (repeat (4 # 1)%Q (S n));
    rewrite (average_repeat (9 # 2) 450) by reflexivity;
    try rewrite (average_repeat (4 # 1) 400) by reflexivity;
    reflexivity.
Qed.

(** With a configured number of samples of zero or less, [evaluate]
    returns without an exception and both scores are absent. *)
Theorem evaluate_without_samples (self : Evaluator.t) (n : Z) :
  n_way_sampling self = VInt n ->
  (n <= 0)%Z ->
  exists m,
    outcome (evaluate self) = Ok m
    /\ reference_based_score m = None
    /\ reference_free_score m = None.
Proof.
  intros Hn Hneg. rewrite evaluate_outcome, Hn. cbn [range]. steps.
  replace (Z.to_nat n) with 0%nat by lia.
  eexists. repeat split.
Qed.

Lemma evaluate_without_samples_witness :
  exists m,
    outcome (evaluate {| repository := Sample.repository;
                         config := VDict ∅;
                         n_way_sampling := VInt 0;
                         evaluation_model := VStr "o3-mini-high" |}) = Ok m
    /\ reference_free_score m = None.
Proof.
  destruct (evaluate_without_samples
              {| repository := Sample.repository; config := VDict ∅;
                 n_way_sampling := VInt 0;
                 evaluation_model := VStr "o3-mini-high" |} 0)
    as (m & Hm & _ & Hfree); [reflexivity|lia|].
  exists m. split; assumption.
Defined.

(** On a repository that has the key [gold_standard], with at least one
    sample, the reference-based score is 4.0 and the reference-free
    score is 4.5. *)
Theorem evaluate_with_gold_standard (self : Evaluator.t) (code : string) (n : Z) :
  repository self !! "gold_standard" = Some code ->
  n_way_sampling self = VInt n ->
  (1 <= n)%Z ->
  exists m,
    outcome (evaluate self) = Ok m
    /\ reference_based_score m = Some (4 # 1)%Q
    /\ reference_free_score m = Some (9 # 2)%Q.
Proof.
  intros Hgold Hn Hpos. rewrite evaluate_outcome, Hn, Hgold. cbn [range]. steps.
  rewrite bool_decide_eq_true_2 by eauto.
  destruct (Z.to_nat n) as [|k] eqn:Hk; [lia|].
  eexists. repeat split.
Qed.

Lemma evaluate_with_gold_standard_witness :
  exists m,
    outcome (evaluate {| repository := <[ "gold_standard" := "reference" ]> Sample.repository;
                         config := VDict Sample.config;
                         n_way_sampling := VInt 8;
                         evaluation_model := VStr "o3-mini-high" |}) = Ok m
    /\ reference_based_score m = Some (4 # 1)%Q.
Proof.
  destruct (evaluate_with_gold_standard
              {| repository := <[ "gold_standard" := "reference" ]> Sample.repository;
                 config := VDict Sample.config;
                 n_way_sampling := VInt 8;
                 evaluation_model := VStr "o3-mini-high" |} "reference" 8)
    as (m & Hm & Hbased & _); [vm_compute; reflexivity|reflexivity|lia|].
  exists m. split; assumption.
Defined.

(** A configured number of samples that is neither an integer nor a
    boolean (a string such as "8", a float, null) makes [evaluate]
    raise [TypeError]; the constructor accepts it. *)
Theorem evaluate_needs_integer_samples file (r : repo) (cfg ev : dict) (v : value) :
  r <> ∅ ->
  cfg !! "evaluation" = Some (VDict ev) ->
  ev !! "n_way_sampling" = Some v ->
  not_a_count v = true ->
  (exists self, outcome (Evaluator.init file r (VDict cfg)) = Ok self)
  /\ outcome (Evaluator.run file r (VDict cfg)) = Raise TypeError.
Proof.
  intros Hr Hev Hv Hbad.
  pose proof (init_explicit file r cfg ev Hr Hev) as Hinit.
  split; [eauto|].
  unfold Evaluator.run. rewrite outcome_bind, Hinit, evaluate_outcome.
  cbn [n_way_sampling]. rewrite Hv. cbn [from_option]. unfold id.
  destruct v; try discriminate; reflexivity.
Qed.

Lemma evaluate_needs_integer_samples_witness :
  outcome (Evaluator.run Unreadable Sample.repository
             (VDict {[ "evaluation" := VDict {[ "n_way_sampling" := VStr "8" ]} ]}))
  = Raise TypeError.
Proof.
  apply (evaluate_needs_integer_samples Unreadable Sample.repository
           {[ "evaluation" := VDict {[ "n_way_sampling" := VStr "8" ]} ]}
           {[ "n_way_sampling" := VStr "8" ]} (VStr "8")).
  - vm_compute. discriminate.
  - reflexivity.
  - reflexivity.
  - reflexivity.
Defined.

(** Whatever the repository and the settings, a result of [evaluate] has
    the human score 4.2, echoes the model and the number of samples of
    the evaluator, counts the files of the repository, and its scores
    are absent or the constants 4.0 (reference-based, only with the key
    [gold_standard]) and 4.5 (reference-free). *)
Theorem evaluate_result_is_constant (self : Evaluator.t) (m : metrics) :
  outcome (evaluate self) = Ok m ->
  human_score m = (42 # 10)%Q
  /\ metrics_evaluation_model m = evaluation_model self
  /\ metrics_n_way_sampling m = n_way_sampling self
  /\ file_count (summary_statistics m) = size (repository self)
  /\ (reference_free_score m = None \/ reference_free_score m = Some (9 # 2)%Q)
  /\ (reference_based_score m = None
      \/ reference_based_score m = Some (4 # 1)%Q
         /\ is_Some (repository self !! "gold_standard")).
Proof.
  rewrite evaluate_outcome.
  destruct (outcome (range (n_way_sampling self))) as [n|]; [|discriminate].
  intros [= <-]. cbn. repeat split.
  - destruct n; cbn; auto.
  - destruct n; cbn; [auto|].
    destruct (bool_decide _) eqn:Hgold; [|auto].
    right. split; [reflexivity|]. apply bool_decide_eq_true in Hgold. exact Hgold.
Qed.

Lemma evaluate_result_is_constant_witness :
  exists m,
    outcome (Evaluator.run Unreadable Sample.repository (VDict Sample.config)) = Ok m
    /\ human_score m = (42 # 10)%Q
    /\ file_count (summary_statistics m) = 6%nat.
Proof.
  eexists. split; [vm_compute; reflexivity|].
  destruct (evaluate_result_is_constant
              {| repository := Sample.repository; config := VDict Sample.config;
                 n_way_sampling := VInt 8;
                 evaluation_model := VStr "o3-mini-high" |}
              _ ltac:(vm_compute; reflexivity)) as (Hh & _ & _ & Hc & _).
  split; [exact Hh|exact Hc].
Defined.

(** Adding a file under a new name adds one to the file count, the
    tokens of its code to the token count and its [def] keywords to the
    function count. *)
Theorem statistics_of_added_file (self : Evaluator.t) (name code : string)
    (stats : statistics) :
  repository self !! name = None ->
  outcome (_compute_summary_statistics self) = Ok stats ->
  outcome (_compute_summary_statistics
             {| repository := <[ name := code ]> (repository self);
                config := config self;
                n_way_sampling := n_way_sampling self;
                evaluation_model := evaluation_model self |})
  = Ok {| file_count := S (file_count stats);
          total_tokens := (total_tokens stats + count_tokens false code)%nat;
          function_count := (function_count stats + count_def false 0 code)%nat |}.
Proof.
  intros Hnew. unfold _compute_summary_statistics. steps. cbn [repository].
  intros [= <-]. cbn [file_count total_tokens function_count].
  rewrite map_size_insert_None by exact Hnew.
  rewrite !(map_fold_insert_L _ _ name code) by (exact Hnew || (intros; lia)).
  reflexivity.
Qed.

Lemma statistics_of_added_file_witness :
  outcome (_compute_summary_statistics
             {| repository := <[ "utils.py" := "def helper(): pass" ]> Sample.repository;
                config := VDict ∅; n_way_sampling := VInt 8;
                evaluation_model := VStr "o3-mini-high" |})
  = Ok {| file_count := 7; total_tokens := 27; function_count := 7 |}.
Proof.
  rewrite (statistics_of_added_file
             {| repository := Sample.repository; config := VDict ∅;
                n_way_sampling := VInt 8; evaluation_model := VStr "o3-mini-high" |}
             "utils.py" "def helper(): pass"
             {| file_count := 6; total_tokens := 24; function_count := 6 |}).
  - reflexivity.
  - vm_compute. reflexivity.
  - vm_compute. reflexivity.
Defined.

(* ================================================================= *)
(** ** Further properties: analyzer.py *)

Lemma miss_warnings_known (names : list string) :
  Forall (fun name => is_Some (module_specs !! name)) names ->
  miss_warnings names = [].
Proof.
  unfold miss_warnings. induction 1 as [|name names [spec Hspec] _ IH]; [reflexivity|].
  cbn. rewrite Hspec. exact IH.
Qed.

(** On a file list of strings [analyze_modules] returns one record per
    name, in the order of the list; a name of the table carries the
    spec of the table; and when every name is in the table the log
    holds the closing message only, no warning. *)
Theorem analyze_modules_keeps_order key_order (self : Analyzer.t) (names : list string) :
  file_list self = VList (VStr <$> names) ->
  exists analysis_list,
    outcome (analyze_modules key_order self) = Ok analysis_list
    /\ file_name <$> analysis_list = VStr <$> names
    /\ (forall i name spec,
          names !! i = Some name -> module_specs !! name = Some spec ->
          analysis_spec <$> analysis_list !! i = Some spec)
    /\ (Forall (fun name => is_Some (module_specs !! name)) names ->
        logged (analyze_modules key_order self)
        = [Log INFO "Module analysis completed successfully with %d modules analyzed."
               [VInt (Z.of_nat (length names))]]).
Proof.
  intros H. rewrite (analyze_modules_strings key_order self names H).
  exists (analysis_of <$> names). cbn [outcome logged fst snd].
  split; [reflexivity|]. split; [|split].
  - rewrite <- list_fmap_compose. reflexivity.
  - intros i name spec Hi Hspec. rewrite list_lookup_fmap, Hi. cbn.
    unfold analysis_of. rewrite Hspec. reflexivity.
  - intros Hknown. rewrite (miss_warnings_known names Hknown). reflexivity.
Qed.

Lemma analyze_modules_keeps_order_witness :
  exists analysis_list,
    outcome (analyze_modules Sample.key_order
               {| Analyzer.plan := ∅; Analyzer.architecture_design := VDict ∅;
                  Analyzer.file_list := VList [VStr "planner.py"; VStr "utils.py";
                                      VStr "main.py"] |})
    = Ok analysis_list
    /\ file_name <$> analysis_list
       = [VStr "planner.py"; VStr "utils.py"; VStr "main.py"].
Proof.
  destruct (analyze_modules_keeps_order Sample.key_order
              {| Analyzer.plan := ∅; Analyzer.architecture_design := VDict ∅;
                 Analyzer.file_list := VList [VStr "planner.py"; VStr "utils.py";
                                     VStr "main.py"] |}
              ["planner.py"; "utils.py"; "main.py"] eq_refl)
    as (l & Hrun & Hnames & _).
  exists l. split; assumption.
Defined.

(** An [architecture_design] that is not a mapping is an exception of
    the constructor: [TypeError] when it is empty (null, zero, an empty
    string or list), [AttributeError] otherwise. *)
Theorem analyzer_init_needs_mapping (p : dict) (v : value) :
  p !! "architecture_design" = Some v ->
  not_dict v = true ->
  outcome (Analyzer.init p)
  = Raise (if truthy v then AttributeError else TypeError).
Proof.
  intros H Hv. unfold Analyzer.init. rewrite H. cbn [from_option]. unfold id.
  destruct (truthy v) eqn:Htruthy; cbn [negb]; steps;
    destruct v; try discriminate; reflexivity.
Qed.

Lemma analyzer_init_needs_mapping_witness :
  outcome (Analyzer.init {[ "architecture_design" := VNone ]}) = Raise TypeError.
Proof.
  apply (analyzer_init_needs_mapping {[ "architecture_design" := VNone ]} VNone);
    reflexivity.
Defined.

Lemma analyze_one_outcome (item : value) :
  match item with
  | VDict _ | VList _ => outcome (analyze_one item) = Raise TypeError
  | _ => exists a, outcome (analyze_one item) = Ok a
  end.
Proof.
  destruct item as [| | | | s | l | d]; unfold analyze_one, lookup_spec; steps;
    eauto.
  destruct (module_specs !! s); steps; eauto.
Qed.

Lemma analyze_loop_unhashable (items : list value) :
  Forall (fun item => match item with VDict _ | VList _ => False | _ => True end)
         items
  \/ forall analysis_list, outcome (analyze_loop items analysis_list) = Raise TypeError.
Proof.
  induction items as [|item items IH]; [left; constructor|].
  pose proof (analyze_one_outcome item) as Hone.
  destruct item as [| | | | s | l | d];
    try (right; intros; cbn [analyze_loop]; rewrite outcome_bind, Hone; reflexivity);
    destruct Hone as [a Ha];
    (destruct IH as [IH|IH]; [left; constructor; [exact I|exact IH]|right]);
    intros analysis_list; cbn [analyze_loop]; rewrite outcome_bind, Ha; apply IH.
Qed.

(** A file list that holds a list or a mapping among its entries makes
    [analyze_modules] raise [TypeError]: no partial analysis is
    returned. *)
Theorem analyze_modules_needs_hashable_names key_order (self : Analyzer.t)
    (items : list value) (i : nat) (item : value) :
  file_list self = VList items ->
  items !! i = Some item ->
  match item with VDict _ | VList _ => True | _ => False end ->
  outcome (analyze_modules key_order self) = Raise TypeError.
Proof.
  intros Hlist Hi Hitem. unfold analyze_modules. rewrite Hlist.
  unfold iterate. steps.
  destruct (analyze_loop_unhashable items) as [Hall| ->]; [|reflexivity].
  exfalso. rewrite Forall_lookup in Hall. specialize (Hall i item Hi).
  destruct item; contradiction.
Qed.

Lemma analyze_modules_needs_hashable_names_witness :
  outcome (analyze_modules Sample.key_order
             {| Analyzer.plan := ∅; Analyzer.architecture_design := VDict ∅;
                Analyzer.file_list := VList [VStr "main.py"; VList [VStr "planner.py"]] |})
  = Raise TypeError.
Proof.
  apply (analyze_modules_needs_hashable_names Sample.key_order
           {| Analyzer.plan := ∅; Analyzer.architecture_design := VDict ∅;
              Analyzer.file_list := VList [VStr "main.py"; VList [VStr "planner.py"]] |}
           [VStr "main.py"; VList [VStr "planner.py"]] 1
           (VList [VStr "planner.py"])).
  - reflexivity.
  - reflexivity.
  - exact I.
Defined.

(* ================================================================= *)
(** ** Further properties: paper_parser.py *)







Lemma paper_dict_fields (paper : PaperParser.Paper) :
  Main.paper_dict paper !! "title" = Some (VStr (title paper))
  /\ Main.paper_dict paper !! "abstract" = Some (VStr (abstract paper))
  /\ Main.paper_dict paper !! "body_text" = Some (VStr (body_text paper)).
Proof. repeat split; vm_compute; reflexivity. Qed.

(** Planning never fails on a parsed paper: for every paper [parse] can
    return, [create_overall_plan] returns a plan that carries the title
    and an excerpt of at most 203 characters, and that flags the
    abstract, then the body, exactly when they are empty. *)
Theorem parsed_paper_is_planned repr_other (paper : PaperParser.Paper) :
  exists plan,
    outcome (create_overall_plan repr_other {| Planner.paper := Main.paper_dict paper |})
    = Ok plan
    /\ summary_title (paper_summary plan) = VStr (title paper)
    /\ (String.length (abstract_excerpt (paper_summary plan)) <= 203)%nat
    /\ ambiguous_details plan
       = ((if nonempty (abstract paper) then []
           else ["Abstract is missing or insufficient to extract methodology details."])
          ++ (if nonempty (body_text paper) then []
              else ["Body text is missing; experimental procedures and detailed methods are unclear."]))%list.
Proof.
  destruct (paper_dict_fields paper) as (Htitle & Habstract & Hbody).
  unfold create_overall_plan. cbn [Planner.paper].
  rewrite Htitle, Habstract, Hbody. cbn [from_option]. unfold id, excerpt. steps.
  eexists. split; [reflexivity|]. cbn [paper_summary summary_title abstract_excerpt
    ambiguous_details]. split; [reflexivity|]. split.
  - rewrite length_append_string. pose proof (length_take 200 (abstract paper)) as Htake.
    set (prefix := take 200 (abstract paper)) in *. clearbody prefix.
    destruct (200 <? String.length (abstract paper))%nat; cbn [String.length]; lia.
  - rewrite !truthy_str.
    destruct (nonempty (abstract paper)), (nonempty (body_text paper)); reflexivity.
Qed.

(* ----------------------------------------------------------------- *)
(** *** Trimming twice *)

Lemma append_assoc_string (a b c : string) : (a ++ b) ++ c = a ++ (b ++ c).
Proof.
  induction a as [|x a IH]; [reflexivity|].
  change (String x ((a ++ b) ++ c) = String x (a ++ (b ++ c))).
  rewrite IH. reflexivity.
Qed.

Lemma rev_app_append (a b : string) :
  String.rev_app a b = String.rev_app a EmptyString ++ b.
Proof.
  revert b. induction a as [|c a IH]; intros b; [reflexivity|].
  cbn [String.rev_app]. rewrite (IH (String c b)), (IH (String c EmptyString)).
  rewrite append_assoc_string. reflexivity.
Qed.

Lemma rev_cons (c : ascii) (s : string) :
  String.rev (String c s) = String.rev s ++ String c EmptyString.
Proof. unfold String.rev. cbn [String.rev_app]. apply rev_app_append. Qed.

Lemma rev_append (a b : string) :
  String.rev (a ++ b) = String.rev b ++ String.rev a.
Proof.
  induction a as [|c a IH].
  - change (EmptyString ++ b) with b. change (String.rev EmptyString) with EmptyString.
    rewrite append_empty. reflexivity.
  - change (String c a ++ b) with (String c (a ++ b)).
    rewrite !rev_cons, IH, append_assoc_string. reflexivity.
Qed.

Lemma rev_involutive (s : string) : String.rev (String.rev s) = s.
Proof.
  induction s as [|c s IH]; [reflexivity|].
  rewrite rev_cons, rev_append, IH. reflexivity.
Qed.

Lemma lstrip_suffix (s : string) : exists w, s = w ++ lstrip s.
Proof.
  induction s as [|c s [w Hw]]; [exists EmptyString; reflexivity|].
  cbn [lstrip]. destruct (isspace c).
  - exists (String c w). change (String c s = String c (w ++ lstrip s)).
    rewrite <- Hw. reflexivity.
  - exists EmptyString. reflexivity.
Qed.

Lemma lstrip_starts_clean (s : string) : starts_clean (lstrip s) = true.
Proof.
  induction s as [|c s IH]; [reflexivity|].
  cbn [lstrip]. destruct (isspace c) eqn:Hc; [exact IH|].
  cbn [starts_clean]. rewrite Hc. reflexivity.
Qed.

Lemma lstrip_of_clean (s : string) : starts_clean s = true -> lstrip s = s.
Proof.
  destruct s as [|c s]; [reflexivity|]. cbn [starts_clean lstrip].
  destruct (isspace c); [discriminate|reflexivity].
Qed.

Lemma starts_clean_prefix (a b : string) :
  starts_clean (a ++ b) = true -> a <> EmptyString -> starts_clean a = true.
Proof. destruct a as [|c a]; [congruence|]. intros H _. exact H. Qed.

Lemma strip_strip (s : string) : strip (strip s) = strip s.
Proof.
  unfold strip.
  set (t := lstrip s). set (u := lstrip (String.rev t)).
  assert (starts_clean t = true) as Ht by apply lstrip_starts_clean.
  assert (starts_clean u = true) as Hu by apply lstrip_starts_clean.
  destruct (lstrip_suffix (String.rev t)) as [w Hw]. fold u in Hw.
  assert (t = String.rev u ++ String.rev w) as Hprefix.
  { rewrite <- (rev_involutive t), Hw, rev_append. reflexivity. }
  assert (lstrip (String.rev u) = String.rev u) as ->.
  { apply lstrip_of_clean. destruct (String.rev u) as [|c r] eqn:Hr; [reflexivity|].
    rewrite Hprefix in Ht. exact Ht. }
  rewrite rev_involutive, (lstrip_of_clean u Hu). reflexivity.
Qed.

(** Trimming is idempotent: the string [_clean_text] returns is left
    unchanged by [_clean_text], and so are the id and the title of a
    parsed paper. *)
Theorem clean_text_is_idempotent repr_other (json : dict) (paper : PaperParser.Paper) :
  outcome (PaperParser.run repr_other json) = Ok paper ->
  outcome (_clean_text (VStr (title paper))) = Ok (title paper)
  /\ outcome (_clean_text (VStr (paper_id paper))) = Ok (paper_id paper)
  /\ forall s, outcome (_clean_text (VStr (strip s))) = Ok (strip s).
Proof.
  intros H. unfold PaperParser.run in H. rewrite outcome_bind in H.
  assert (forall s, outcome (_clean_text (VStr (strip s))) = Ok (strip s)) as Hstrip.
  { intros s. steps. rewrite strip_strip. reflexivity. }
  unfold PaperParser.init in H.
  destruct (negb _ || negb _) in H; autorewrite with outcome in H;
    [discriminate|].
  rewrite parse_outcome in H.
  repeat case_match; try discriminate. injection H as <-.
  cbn [title paper_id]. auto.
Qed.

Lemma clean_text_is_idempotent_witness :
  exists paper,
    outcome (PaperParser.run Sample.no_repr Sample.paper_json) = Ok paper
    /\ outcome (_clean_text (VStr (title paper))) = Ok (title paper).
Proof.
  eexists. split; [vm_compute; reflexivity|].
  apply (clean_text_is_idempotent Sample.no_repr Sample.paper_json).
  vm_compute. reflexivity.
Defined.



(* ================================================================= *)
(** ** Further properties: main.py *)

Lemma try_except_outcome {A} (body handler : M A) :
  outcome (Main.try_except body handler)
  = match outcome body with
    | Ok a => Ok a
    | Raise _ => outcome handler
    end.
Proof. destruct body as [l [a|e]], handler as [l' r]; reflexivity. Qed.

Lemma setitem_outcome (v : value) (key : string) (x r : value) :
  outcome (Analyzer.setitem v key x) = Ok r ->
  exists d, v = VDict d /\ r = VDict (<[ key := x ]> d).
Proof.
  destruct v; try discriminate. intros [= <-]. eauto.
Qed.

(** [ensure_key] returns a mapping only for a mapping, which it extends
    by the key when the key is missing. *)
Lemma ensure_key_outcome (section : value) (key : string) (dflt r : value)
    (d : dict) :
  outcome (Main.ensure_key section key dflt) = Ok r ->
  r = VDict d ->
  exists ds, section = VDict ds /\ ds ⊆ d /\ is_Some (d !! key).
Proof.
  unfold Main.ensure_key. rewrite outcome_bind.
  destruct section as [| | | | s | l | ds]; try discriminate.
  - unfold is_in. steps. destruct (contains key s); steps; [|discriminate].
    intros [= <-]. discriminate.
  - unfold is_in. steps. destruct (existsb _ l); steps; [|discriminate].
    intros [= <-]. discriminate.
  - unfold is_in. steps. destruct (bool_decide _) eqn:Hkey; steps.
    + intros [= <-] [= <-]. apply bool_decide_eq_true in Hkey. eauto.
    + apply bool_decide_eq_false in Hkey. unfold Analyzer.setitem. steps.
      intros [= <-] [= <-]. exists ds. split; [reflexivity|]. split.
      * apply insert_subseteq, eq_None_not_Some, Hkey.
      * rewrite lookup_insert_eq. eauto.
Qed.

Ltac next_step H :=
  rewrite outcome_bind;
  match goal with
  | |- context [match outcome ?m with _ => _ end] =>
      destruct (outcome m) eqn:H; [|discriminate]
  end.

(** What the [try] block of [load_configuration] returns, when it
    returns. *)
Lemma fill_configuration_shape (document r : value) :
  outcome (Main.fill_configuration document) = Ok r ->
  exists cfg training evaluation,
    r = VDict cfg
    /\ cfg !! "training" = Some training
    /\ cfg !! "evaluation" = Some evaluation
    /\ (forall t, training = VDict t ->
          is_Some (t !! "learning_rate") /\ is_Some (t !! "batch_size")
          /\ is_Some (t !! "epochs"))
    /\ (forall e, evaluation = VDict e ->
          is_Some (e !! "n_way_sampling") /\ is_Some (e !! "evaluation_model")).
Proof.
  unfold Main.fill_configuration.
  next_step Hconfig. next_step Htraining. next_step Hlr. next_step Hbs.
  next_step Hep. next_step Hset. next_step Hevaluation. next_step Hn.
  next_step Hmodel. next_step Hset'. steps. intros [= <-].
  apply setitem_outcome in Hset as (d & -> & ->).
  apply setitem_outcome in Hset' as (d' & [= <-] & ->).
  eexists _, _, _. split; [reflexivity|]. split; [|split; [|split]].
  - rewrite lookup_insert_ne by discriminate. apply lookup_insert_eq.
  - apply lookup_insert_eq.
  - intros t ->.
    destruct (ensure_key_outcome _ _ _ _ t Hep eq_refl) as (t2 & -> & Ht2 & Hepochs).
    destruct (ensure_key_outcome _ _ _ _ t2 Hbs eq_refl) as (t1 & -> & Ht1 & Hbatch).
    destruct (ensure_key_outcome _ _ _ _ t1 Hlr eq_refl) as (t0 & -> & _ & Hrate).
    split; [|split; [|exact Hepochs]].
    + apply (lookup_weaken_is_Some t1); [exact Hrate|]. etrans; eassumption.
    + apply (lookup_weaken_is_Some t2); assumption.
  - intros e ->.
    destruct (ensure_key_outcome _ _ _ _ e Hmodel eq_refl) as (e1 & -> & He1 & Hname).
    destruct (ensure_key_outcome _ _ _ _ e1 Hn eq_refl) as (e0 & -> & _ & Hcount).
    split; [|exact Hname].
    apply (lookup_weaken_is_Some e1); assumption.
Qed.

(** [load_configuration] never raises: whatever the file, it returns a
    mapping that has a training and an evaluation section, and a
    section that is a mapping holds every key of its kind. *)
Theorem load_configuration_always_returns (file : yaml_file) :
  exists cfg training evaluation,
    outcome (Main.load_configuration file) = Ok (VDict cfg)
    /\ cfg !! "training" = Some training
    /\ cfg !! "evaluation" = Some evaluation
    /\ (forall t, training = VDict t ->
          is_Some (t !! "learning_rate") /\ is_Some (t !! "batch_size")
          /\ is_Some (t !! "epochs"))
    /\ (forall e, evaluation = VDict e ->
          is_Some (e !! "n_way_sampling") /\ is_Some (e !! "evaluation_model")).
Proof.
  assert (exists cfg training evaluation,
             Ok Main.default_configuration = Ok (VDict cfg)
             /\ cfg !! "training" = Some training
             /\ cfg !! "evaluation" = Some evaluation
             /\ (forall t, training = VDict t ->
                   is_Some (t !! "learning_rate") /\ is_Some (t !! "batch_size")
                   /\ is_Some (t !! "epochs"))
             /\ (forall e, evaluation = VDict e ->
                   is_Some (e !! "n_way_sampling")
                   /\ is_Some (e !! "evaluation_model"))) as Hdefault.
  { eexists _, _, _. split; [reflexivity|]. split; [reflexivity|].
    split; [reflexivity|].
    split; [intros t [= <-]|intros e [= <-]]; repeat split; vm_compute; eauto. }
  destruct file as [|document]; [exact Hdefault|].
  unfold Main.load_configuration. rewrite try_except_outcome.
  destruct (outcome (Main.fill_configuration document)) as [r|] eqn:Hfill;
    [|exact Hdefault].
  destruct (fill_configuration_shape document r Hfill)
    as (cfg & training & evaluation & -> & H).
  exists cfg, training, evaluation. split; [reflexivity|exact H].
Qed.

(** On a file that cannot be read, on an empty document, on a document
    that is not a mapping, and on a mapping with a section that is
    null, a boolean or a number, [load_configuration] returns the
    default configuration. *)
Theorem load_configuration_falls_back (file : yaml_file) :
  (file = Unreadable
   \/ (exists document,
         file = Loaded document
         /\ (truthy document = false \/ not_dict document = true))
   \/ (exists doc v,
         file = Loaded (VDict doc)
         /\ (doc !! "training" = Some v \/ doc !! "evaluation" = Some v)
         /\ not_container v = true)) ->
  outcome (Main.load_configuration file) = Ok Main.default_configuration.
Proof.
  intros [->|[(document & -> & Hdocument)|(doc & v & -> & Hsection & Hv)]];
    [reflexivity| |].
  - unfold Main.load_configuration. rewrite try_except_outcome.
    unfold Main.fill_configuration.
    destruct (truthy document) eqn:Htruthy.
    + destruct Hdocument as [?|Hdocument]; [discriminate|].
      destruct document; try discriminate; reflexivity.
    + vm_compute. reflexivity.
  - unfold Main.load_configuration. rewrite try_except_outcome.
    destruct (outcome (Main.fill_configuration (VDict doc))) as [r|] eqn:Hfill;
      [exfalso|reflexivity].
    assert (doc <> ∅) as Hdoc.
    { intros ->. destruct Hsection as [H|H]; rewrite lookup_empty in H;
        discriminate. }
    assert (forall key dflt, outcome (Main.ensure_key v key dflt) = Raise TypeError)
      as Hraise.
    { intros key dflt. destruct v; try discriminate; reflexivity. }
    revert Hfill. unfold Main.fill_configuration. cbn [truthy].
    rewrite bool_decide_eq_false_2 by exact Hdoc. cbn [negb].
    next_step Hconfig. injection Hconfig as <-.
    next_step Htraining. next_step Hlr. next_step Hbs. next_step Hep.
    next_step Hset. next_step Hevaluation. next_step Hn.
    exfalso. destruct Hsection as [Hsection|Hsection].
    + revert Htraining. unfold get. steps. rewrite Hsection. cbn [from_option].
      unfold id. intros [= <-]. rewrite Hraise in Hlr. discriminate.
    + apply setitem_outcome in Hset as (d & [= <-] & ->).
      revert Hevaluation. unfold get. steps.
      rewrite lookup_insert_ne by discriminate. rewrite Hsection.
      cbn [from_option]. unfold id. intros [= <-]. rewrite Hraise in Hn.
      discriminate.
Qed.

Lemma load_configuration_falls_back_witness :
  outcome (Main.load_configuration (Loaded Sample.config_with_empty_section))
  = Ok Main.default_configuration
  /\ outcome (Main.load_configuration (Loaded Sample.config_sequence))
     = Ok Main.default_configuration.
Proof.
  split.
  - apply (load_configuration_falls_back (Loaded Sample.config_with_empty_section)).
    right. right. eexists _, VNone. split; [reflexivity|].
    split; [left; vm_compute; reflexivity|reflexivity].
  - apply (load_configuration_falls_back (Loaded Sample.config_sequence)).
    right. left. eexists. split; [reflexivity|]. right. reflexivity.
Defined.
